(** * Keybow 2040 / Home Assistant serial bridge

    A shallow embedding of [ha_bridge.py] (the host-side bridge) and of the
    protocol-facing parts of [code.py] (the keypad firmware), with the
    properties of the line protocol, the remote-state client, the session
    dispatcher and the restart supervisor.

    Conventions.
    - Python [str] values are [string]s; a character is a code point below
      256, so [ascii] code 133 is U+0085 and 160 is U+00A0.
    - Python [int] values are [Z].
    - A [dict] whose iteration order is observable (the key-to-entity map) is
      an association list in insertion order with unique keys.
    - Everything the program does to the outside world (serial port, HTTP,
      sleeping, printing) goes through a state-and-exception monad [M]; the
      outside world answers through an oracle [Env] indexed by the number of
      interactions made so far. *)

From Stdlib Require Import ZArith List String Ascii Bool Lia DecimalString DecimalPos.
Import ListNotations.
Open Scope string_scope.
Open Scope Z_scope.

(** ** Python text primitives used by the bridge *)

Module PyStr.

Definition code (c : ascii) : N := N_of_ascii c.

(** [str.isspace] on one character, for the code points below 256:
    TAB..CR, FS..US, SPACE, NEL and NBSP. *)
Definition isspace (c : ascii) : bool :=
  let n := code c in
  ((9 <=? n) && (n <=? 13) || (28 <=? n) && (n <=? 32)
   || (n =? 133) || (n =? 160))%N.

(** [s.lstrip()] *)
Fixpoint lstrip (s : string) : string :=
  match s with
  | String c s' => if isspace c then lstrip s' else s
  | EmptyString => EmptyString
  end.

(** [s.rstrip()] *)
Fixpoint rstrip (s : string) : string :=
  match s with
  | String c s' =>
      match rstrip s' with
      | EmptyString => if isspace c then EmptyString else String c EmptyString
      | r => String c r
      end
  | EmptyString => EmptyString
  end.

(** [s.strip()] *)
Definition strip (s : string) : string := rstrip (lstrip s).

(** [s.rstrip(ch)] for a one-character argument. *)
Fixpoint rstrip_char (ch : ascii) (s : string) : string :=
  match s with
  | String c s' =>
      match rstrip_char ch s' with
      | EmptyString => if Ascii.eqb c ch then EmptyString else String c EmptyString
      | r => String c r
      end
  | EmptyString => EmptyString
  end.

(** [s.startswith(p)] *)
Fixpoint startswith (p s : string) : bool :=
  match p, s with
  | EmptyString, _ => true
  | String a p', String b s' => Ascii.eqb a b && startswith p' s'
  | String _ _, EmptyString => false
  end.

(** [s.split(sep)] for a one-character separator: never empty, and
    [sep] occurs in none of the fields. *)
Fixpoint split (sep : ascii) (s : string) : list string :=
  match s with
  | EmptyString => [EmptyString]
  | String c s' =>
      if Ascii.eqb c sep then EmptyString :: split sep s'
      else match split sep s' with
           | f :: fs => String c f :: fs
           | [] => [String c EmptyString]
           end
  end.

(** [str(n)] for an [int]. *)
Definition of_int (n : Z) : string := NilZero.string_of_int (Z.to_int n).

(** Whitespace as [int(...)] sees it: the C locale's space characters,
    and the two non-ASCII spaces, which the interpreter maps to a blank
    before it parses. *)
Definition int_space (c : ascii) : bool :=
  let n := code c in
  ((9 <=? n) && (n <=? 13) || (n =? 32) || (n =? 133) || (n =? 160))%N.

Definition digit (c : ascii) : option Z :=
  let n := code c in
  if ((48 <=? n) && (n <=? 57))%N then Some (Z.of_N n - 48) else None.

Fixpoint skip_space (s : string) : string :=
  match s with
  | String c s' => if int_space c then skip_space s' else s
  | EmptyString => EmptyString
  end.

(** The digits of a decimal literal: [acc] is the value read so far,
    [prev_us] tells that the previous character was an underscore.  A single
    underscore is allowed between two digits.  Returns the value and the
    unread rest. *)
Fixpoint digits (acc : Z) (prev_us : bool) (s : string) : option (Z * string) :=
  match s with
  | String c s' =>
      match digit c with
      | Some d => digits (10 * acc + d) false s'
      | None =>
          if Ascii.eqb c "_" then
            if prev_us then None else digits acc true s'
          else if prev_us then None else Some (acc, s)
      end
  | EmptyString => if prev_us then None else Some (acc, EmptyString)
  end.

(** The literal after the sign: it starts with a digit. *)
Definition magnitude (s : string) : option (Z * string) :=
  match s with
  | String c _ => match digit c with Some _ => digits 0 false s | None => None end
  | EmptyString => None
  end.

(** The value of a decimal literal as [int] reads it: optional
    whitespace, an optional sign, digits with single underscores between
    them, optional whitespace.  [None]: the text is no such literal. *)
Definition to_int (s : string) : option Z :=
  let s1 := skip_space s in
  let '(neg, s2) :=
    match s1 with
    | String "-" r => (true, r)
    | String "+" r => (false, r)
    | _ => (false, s1)
    end in
  match magnitude s2 with
  | Some (v, rest) =>
      match skip_space rest with
      | EmptyString => Some (if neg then - v else v)
      | _ => None
      end
  | None => None
  end.

(** The interpreter's default limit on the digits of an integer literal
    ([sys.get_int_max_str_digits()]). *)
Definition int_max_str_digits : N := 4300.

(** The number of digit characters of [s]. *)
Fixpoint digit_count (s : string) : N :=
  match s with
  | EmptyString => 0
  | String c s' =>
      match digit c with
      | Some _ => N.succ (digit_count s')
      | None => digit_count s'
      end
  end.

(** [int(s)]: [None] stands for [ValueError], raised for a text that is no
    decimal literal and for a literal of more than [int_max_str_digits]
    digits (leading zeros count, underscores do not). *)
Definition py_int (s : string) : option Z :=
  match to_int s with
  | Some v => if (digit_count s <=? int_max_str_digits)%N then Some v else None
  | None => None
  end.

End PyStr.

(** ** Exceptions, the outside world and the effect monad *)

(** The exception classes the bridge raises or lets through. *)
Inductive exn : Type :=
| KeyboardInterrupt            (* BaseException only *)
| SystemExit (status : Z)      (* BaseException only; raised by sys.exit *)
| RestartRequested             (* class RestartRequested(Exception) *)
| ConnectionError              (* built-in, a subclass of OSError *)
| OSError
| SerialException              (* serial.SerialException *)
| ValueError
| IndexError
| OtherException.

(** [isinstance(e, Exception)] *)
Definition is_Exception (e : exn) : bool :=
  match e with
  | KeyboardInterrupt | SystemExit _ => false
  | _ => true
  end.

(** [isinstance(e, (OSError, serial.SerialException))] *)
Definition is_OSError_or_Serial (e : exn) : bool :=
  match e with
  | ConnectionError | OSError | SerialException => true
  | _ => false
  end.

(** An error reported by an I/O library call ([requests] or [serial]):
    every such error is an instance of [Exception].  An operator interrupt is
    not one of them; it is delivered where the program idles, at the serial
    poll and during the retry wait. *)
Inductive io_error : Type := IOTimeout | IOTransport | IOOther.

(** JSON values, as far as the client looks into them. *)
Inductive json : Type :=
| JNull                        (* Python [None] *)
| JStr (s : string)
| JOther.                      (* numbers, booleans, arrays, objects *)

(** A decoded response body: an object with its members in document order,
    or some other JSON document. *)
Inductive document : Type :=
| JObj (fields : list (string * json))
| JNotObj.

(** What [session.get] / [session.post] produce. *)
Inductive http_reply : Type :=
| HttpRaises (e : io_error)
| HttpResponse (status_code : Z) (body : option document).  (* [None]: the body is not JSON *)

(** What one poll of the serial port produces. *)
Inductive poll : Type :=
| PollNothing                  (* in_waiting == 0 *)
| PollLine (decoded : string)  (* readline().decode('utf-8', errors='ignore') *)
| PollRaises (e : exn).

Inductive delay : Type :=
| InitDelay | SettleDelay | PollDelay | CloseDelay | RetryDelay.

(** The messages the bridge prints. *)
Inductive msg : Type :=
| MsgErrState (entity_id : string)
| MsgErrCall (domain service : string)
| MsgConnecting (port : string)
| MsgConnected
| MsgConnectFailed
| MsgErrSend
| MsgSerialError
| MsgKeyState (key_num : Z) (entity_id state : string)
| MsgErrRefresh (key_num : Z)
| MsgNotMapped (key_num : Z)
| MsgToggle (key_num : Z) (entity_id : string)
| MsgToggled (entity_id : string)
| MsgToggleFailed (entity_id : string)
| MsgResetDetected
| MsgReadySync
| MsgHeartbeat
| MsgKeybow (command : string)
| MsgBanner (entities : nat)
| MsgShuttingDown
| MsgRestart
| MsgMainLoopError
| MsgBridgeStopped
| MsgTitle
| MsgConfigErrors (errors : list string)
| MsgConfiguration
| MsgStoppedByUser
| MsgRestartingNow
| MsgMaxRetries (max_retries : Z)
| MsgErrorAttempt (retry_count : Z)
| MsgStoppedDuringWait.

(** What the program did, in order. *)
Inductive event : Type :=
| EvOpen (port : string) (baud : Z)
| EvWrite (data : string)      (* the port accepted [data] *)
| EvFlush
| EvClose
| EvGet (url : string)
| EvPost (url entity_id : string)
| EvSleep (d : delay)
| EvPrint (m : msg)
| EvPrintErr (m : msg).

(** The outside world: each answer may depend on the number of interactions
    made before it. *)
Record Env : Type := {
  ser_open  : nat -> option io_error;
  ser_poll  : nat -> poll;
  ser_write : nat -> string -> option io_error;
  ser_flush : nat -> option io_error;
  ser_close : nat -> option io_error;
  http_get  : nat -> string -> http_reply;
  http_post : nat -> string -> string -> http_reply;
  wait_interrupted : nat -> bool
}.

(** The program's store: the [KeybowBridge] object's mutable fields and the
    supervisor's local [retry_count], with the clock of the outside world and
    the trace of what happened. *)
Record State : Type := {
  tick : nat;
  trace : list event;
  ser : option bool;             (* [None], or a port with its [is_open] *)
  running : bool;
  ready_count : Z;
  retry_count : Z
}.

Definition init_state : State :=
  {| tick := 0; trace := []; ser := None; running := false;
     ready_count := 0; retry_count := 0 |}.

Inductive res (A : Type) : Type :=
| Ok (a : A)
| Raise (e : exn)
| Fuel.                          (* a bounded unrolling ended before the loop did *)
Arguments Ok {A} a.
Arguments Raise {A} e.
Arguments Fuel {A}.

Definition M (A : Type) : Type := Env -> State -> res A * State.

Definition ret {A} (a : A) : M A := fun _ s => (Ok a, s).
Definition raise {A} (e : exn) : M A := fun _ s => (Raise e, s).
Definition bind {A B} (m : M A) (k : A -> M B) : M B :=
  fun env s =>
    match m env s with
    | (Ok a, s') => k a env s'
    | (Raise e, s') => (Raise e, s')
    | (Fuel, s') => (Fuel, s')
    end.

Declare Scope m_scope.
Delimit Scope m_scope with m.
Notation "x <- m ;; k" := (bind m (fun x => k))
  (at level 61, m at next level, right associativity) : m_scope.
Notation "m ;; k" := (bind m (fun _ => k))
  (at level 61, right associativity) : m_scope.
Open Scope m_scope.

(** [try: m except <classes>: h], the handler seeing the exception. *)
Definition try_except {A} (m : M A) (caught : exn -> bool) (h : exn -> M A) : M A :=
  fun env s =>
    match m env s with
    | (Raise e, s') => if caught e then h e env s' else (Raise e, s')
    | r => r
    end.

(** [try: m finally: f] *)
Definition try_finally {A} (m : M A) (f : M unit) : M A :=
  fun env s =>
    match m env s with
    | (Fuel, s') => (Fuel, s')
    | (r, s') =>
        match f env s' with
        | (Ok _, s'') => (r, s'')
        | (Raise e, s'') => (Raise e, s'')
        | (Fuel, s'') => (Fuel, s'')
        end
    end.

Definition log (e : event) : M unit :=
  fun _ s => (Ok tt, {| tick := tick s; trace := trace s ++ [e]; ser := ser s;
                        running := running s; ready_count := ready_count s;
                        retry_count := retry_count s |}).

Definition print (m : msg) : M unit := log (EvPrint m).
Definition print_err (m : msg) : M unit := log (EvPrintErr m).
Definition sleep (d : delay) : M unit := log (EvSleep d).

(** One interaction with the outside world: read the oracle at the current
    tick and advance the clock. *)
Definition ask {A} (f : Env -> nat -> A) : M A :=
  fun env s => (Ok (f env (tick s)),
                {| tick := S (tick s); trace := trace s; ser := ser s;
                   running := running s; ready_count := ready_count s;
                   retry_count := retry_count s |}).

Definition get_ser : M (option bool) := fun _ s => (Ok (ser s), s).
Definition set_ser (p : option bool) : M unit :=
  fun _ s => (Ok tt, {| tick := tick s; trace := trace s; ser := p;
                        running := running s; ready_count := ready_count s;
                        retry_count := retry_count s |}).
Definition get_running : M bool := fun _ s => (Ok (running s), s).
Definition set_running (b : bool) : M unit :=
  fun _ s => (Ok tt, {| tick := tick s; trace := trace s; ser := ser s;
                        running := b; ready_count := ready_count s;
                        retry_count := retry_count s |}).
Definition get_ready_count : M Z := fun _ s => (Ok (ready_count s), s).
Definition set_ready_count (n : Z) : M unit :=
  fun _ s => (Ok tt, {| tick := tick s; trace := trace s; ser := ser s;
                        running := running s; ready_count := n;
                        retry_count := retry_count s |}).
Definition get_retry_count : M Z := fun _ s => (Ok (retry_count s), s).
Definition set_retry_count (n : Z) : M unit :=
  fun _ s => (Ok tt, {| tick := tick s; trace := trace s; ser := ser s;
                        running := running s; ready_count := ready_count s;
                        retry_count := n |}).

(** ** Configuration (the module-level constants of ha_bridge.py) *)

Record Config : Type := {
  config_loaded : bool;          (* the [config] dict is not empty *)
  HA_URL : string;
  HA_TOKEN : string;
  SERIAL_PORT : string;
  BAUD_RATE : Z;
  ENTITY_MAP : list (Z * string);
  MAX_RETRIES : option Z;        (* [None], or an int *)
  QUIET_MODE : bool
}.

(** [k in d] and [d[k]] on the key-to-entity dict. *)
Fixpoint lookup (k : Z) (d : list (Z * string)) : option string :=
  match d with
  | [] => None
  | (k', v) :: d' => if k =? k' then Some v else lookup k d'
  end.

(** ** HomeAssistant: the REST client *)

Record HomeAssistant : Type := { url : string; token : string }.

(** [HomeAssistant.__init__] *)
Definition HomeAssistant_init (u t : string) : HomeAssistant :=
  {| url := PyStr.rstrip_char "/" u; token := t |}.

(** [d.get(key)] on a decoded JSON object: the last binding of a repeated
    key wins, and a missing key gives [None] (here [JNull]). *)
Fixpoint dict_get (key : string) (fields : list (string * json)) : json :=
  match fields with
  | [] => JNull
  | (k, v) :: rest =>
      if existsb (fun kv => String.eqb (fst kv) key) rest then dict_get key rest
      else if String.eqb k key then v else JNull
  end.

Section Client.
Variable ha : HomeAssistant.

(** [HomeAssistant.get_state]: the entity's state, or [None] ([JNull]). *)
Definition get_state (entity_id : string) : M json :=
  let u := url ha ++ "/api/states/" ++ entity_id in
  log (EvGet u) ;;
  r <- ask (fun env t => http_get env t u) ;;
  match r with
  | HttpRaises _ => print_err (MsgErrState entity_id) ;; ret JNull
  | HttpResponse status_code body =>
      if status_code =? 200 then
        match body with
        | Some (JObj fields) => ret (dict_get "state" fields)
        | _ => print_err (MsgErrState entity_id) ;; ret JNull
        end
      else ret JNull
  end.

(** [HomeAssistant.call_service] *)
Definition call_service (domain service entity_id : string) : M bool :=
  let u := url ha ++ "/api/services/" ++ domain ++ "/" ++ service in
  log (EvPost u entity_id) ;;
  r <- ask (fun env t => http_post env t u entity_id) ;;
  match r with
  | HttpRaises _ => print_err (MsgErrCall domain service) ;; ret false
  | HttpResponse status_code _ => ret (status_code =? 200)
  end.

(** [HomeAssistant.toggle] *)
Definition toggle (entity_id : string) : M bool :=
  let domain := hd "" (PyStr.split "." entity_id) in
  let service :=
    if String.eqb domain "scene" || String.eqb domain "script"
    then "turn_on" else "toggle" in
  call_service domain service entity_id.

(** [state == "on"] *)
Definition eq_on (state : json) : bool :=
  match state with JStr s => String.eqb s "on" | _ => false end.

(** [HomeAssistant.is_on] *)
Definition is_on (entity_id : string) : M bool :=
  state <- get_state entity_id ;;
  ret (eq_on state).

End Client.

(** ** KeybowBridge: one serial session *)

Section Bridge.
Variable cfg : Config.
Variable ha : HomeAssistant.

(** [KeybowBridge.__init__]: a fresh object. *)
Definition KeybowBridge_init : M unit :=
  set_ser None ;; set_running false ;; set_ready_count 0.

(** [KeybowBridge.connect].  (An operator interrupt during the
    initialisation delay, which would leave [connect] with the port open, is
    not among the behaviours of the outside world described here.) *)
Definition connect : M bool :=
  print (MsgConnecting (SERIAL_PORT cfg)) ;;
  r <- ask ser_open ;;
  match r with
  | None =>
      log (EvOpen (SERIAL_PORT cfg) (BAUD_RATE cfg)) ;;
      set_ser (Some true) ;;
      sleep InitDelay ;;
      print MsgConnected ;;
      ret true
  | Some _ => print_err MsgConnectFailed ;; ret false
  end.

(** The line [f"STATE:{key_num}:{state}\n"]. *)
Definition state_line (key_num : Z) (state : string) : string :=
  "STATE:" ++ PyStr.of_int key_num ++ ":" ++ state ++ String "010" "".

(** [KeybowBridge.send_state] *)
Definition send_state (key_num : Z) (state : string) : M unit :=
  p <- get_ser ;;
  match p with
  | Some true =>
      let data := state_line key_num state in
      w <- ask (fun env t => ser_write env t data) ;;
      match w with
      | Some _ => print_err MsgErrSend
      | None =>
          log (EvWrite data) ;;
          f <- ask ser_flush ;;
          match f with
          | Some _ => print_err MsgErrSend
          | None => log EvFlush
          end
      end
  | _ => ret tt
  end.

Definition on_off (b : bool) : string := if b then "on" else "off".

(** [KeybowBridge.refresh_states], over the items still to visit. *)
Fixpoint refresh_items (items : list (Z * string)) : M unit :=
  match items with
  | [] => ret tt
  | (key_num, entity_id) :: rest =>
      try_except
        (b <- is_on ha entity_id ;;
         let state := on_off b in
         send_state key_num state ;;
         print (MsgKeyState key_num entity_id state))
        is_Exception
        (fun _ => print_err (MsgErrRefresh key_num)) ;;
      refresh_items rest
  end.

Definition refresh_states : M unit := refresh_items (ENTITY_MAP cfg).

(** [KeybowBridge.handle_toggle] *)
Definition handle_toggle (key_num : Z) : M unit :=
  match lookup key_num (ENTITY_MAP cfg) with
  | None => print (MsgNotMapped key_num)
  | Some entity_id =>
      print (MsgToggle key_num entity_id) ;;
      ok <- toggle ha entity_id ;;
      if ok then
        print (MsgToggled entity_id) ;;
        sleep SettleDelay ;;
        b <- is_on ha entity_id ;;
        send_state key_num (on_off b)
      else print (MsgToggleFailed entity_id)
  end.

(** [KeybowBridge.handle_command] *)
Definition handle_command (command : string) : M unit :=
  if String.eqb command "READY" then
    n <- get_ready_count ;;
    set_ready_count (n + 1) ;;
    n' <- get_ready_count ;;
    if 1 <? n' then
      print MsgResetDetected ;; raise RestartRequested
    else
      print MsgReadySync ;; refresh_states
  else if String.eqb command "HEARTBEAT" then
    if QUIET_MODE cfg then ret tt else print MsgHeartbeat
  else if PyStr.startswith "TOGGLE:" command then
    match PyStr.split ":" command with
    | _ :: field :: _ =>
        match PyStr.py_int field with
        | Some key_num => handle_toggle key_num
        | None => raise ValueError
        end
    | _ => raise IndexError
    end
  else if PyStr.startswith "DEBUG:" command || PyStr.startswith "ERROR:" command then
    print (MsgKeybow command)
  else ret tt.

(** [KeybowBridge.read_serial] *)
Definition read_serial : M unit :=
  p <- get_ser ;;
  match p with
  | Some true =>
      try_except
        (r <- ask ser_poll ;;
         match r with
         | PollNothing => ret tt
         | PollLine line =>
             if String.eqb line "" then ret tt
             else handle_command (PyStr.strip line)
         | PollRaises e => raise e
         end)
        is_OSError_or_Serial
        (fun _ => print_err MsgSerialError ;; raise ConnectionError)
  | _ => ret tt
  end.

(** The [while self.running] loop of [run], unrolled at most [fuel] times. *)
Fixpoint run_loop (fuel : nat) : M unit :=
  match fuel with
  | O => fun _ s => (Fuel, s)
  | S fuel' =>
      r <- get_running ;;
      if r then read_serial ;; sleep PollDelay ;; run_loop fuel'
      else ret tt
  end.

(** The [finally] block of [run]. *)
Definition release : M unit :=
  set_running false ;;
  p <- get_ser ;;
  match p with
  | Some true =>
      c <- ask ser_close ;;
      match c with
      | None => log EvClose ;; set_ser (Some false) ;; sleep CloseDelay
      | Some _ => ret tt
      end
  | _ => ret tt
  end ;;
  print MsgBridgeStopped.

(** The [try] statement of [run]: the loop, the three [except] clauses
    that print and re-raise, and the [finally] block. *)
Definition run_guarded (fuel : nat) : M unit :=
  try_finally
    (try_except (run_loop fuel) (fun _ => true)
       (fun e =>
          match e with
          | KeyboardInterrupt => print MsgShuttingDown ;; raise e
          | RestartRequested => print MsgRestart ;; raise e
          | _ => if is_Exception e
                 then print_err MsgMainLoopError ;; raise e
                 else raise e
          end))
    release.

(** [KeybowBridge.run] *)
Definition run (fuel : nat) : M unit :=
  ok <- connect ;;
  if negb ok then raise ConnectionError
  else
    set_running true ;;
    print (MsgBanner (List.length (ENTITY_MAP cfg))) ;;
    run_guarded fuel.

End Bridge.

(** ** The supervisor: [main] *)

Section Supervisor.
Variable cfg : Config.

(** [validate_config].  (The messages are the source's texts, byte for
    byte.) *)
Definition validate_config : list string :=
  (if String.eqb (HA_TOKEN cfg) "" || String.eqb (HA_TOKEN cfg) "YOUR_LONG_LIVED_ACCESS_TOKEN"
   then ["HA_TOKEN not set in bridge_config.json";
         "  Add token under: home_assistant.token";
         "  Get token: HA Profile → Long-Lived Access Tokens"]
   else [])
  ++ (match ENTITY_MAP cfg with
      | [] => ["No entities mapped in bridge_config.json";
               "  Add entries to the 'keys' section"]
      | _ => []
      end)
  ++ (if config_loaded cfg then []
      else ["Failed to load bridge_config.json";
            "  Ensure file exists in same directory as script"]).

(** [MAX_RETRIES and retry_count >= MAX_RETRIES] *)
Definition max_retries_reached (n : Z) : bool :=
  match MAX_RETRIES cfg with
  | Some m => negb (m =? 0) && (m <=? n)
  | None => false
  end.

Inductive loop_ctl : Type := Break | Continue.

(** One turn of the retry loop: a fresh bridge is run for at most [polls]
    polls, and its end is classified. *)
Definition attempt (ha : HomeAssistant) (polls : nat) : M loop_ctl :=
  try_except
    (KeybowBridge_init ;; run cfg ha polls ;; ret Break)
    (fun e => match e with KeyboardInterrupt => true | _ => is_Exception e end)
    (fun e =>
       match e with
       | KeyboardInterrupt => print MsgStoppedByUser ;; ret Break
       | RestartRequested =>
           set_retry_count 0 ;;
           print MsgRestartingNow ;;
           ret Continue
       | _ =>
           n <- get_retry_count ;;
           set_retry_count (n + 1) ;;
           n' <- get_retry_count ;;
           if max_retries_reached n' then
             print (MsgMaxRetries (match MAX_RETRIES cfg with Some m => m | None => 0 end)) ;;
             raise (SystemExit 1)
           else
             print (MsgErrorAttempt n') ;;
             i <- ask wait_interrupted ;;
             if i then print MsgStoppedDuringWait ;; ret Break
             else sleep RetryDelay ;; ret Continue
       end).

(** The [while True] loop of [main], unrolled for at most [sessions]
    sessions of at most [polls] polls each. *)
Fixpoint retry_loop (ha : HomeAssistant) (polls sessions : nat) : M unit :=
  match sessions with
  | O => fun _ s => (Fuel, s)
  | S sessions' =>
      c <- attempt ha polls ;;
      match c with
      | Break => ret tt
      | Continue => retry_loop ha polls sessions'
      end
  end.

(** [main] *)
Definition main (polls sessions : nat) : M unit :=
  print MsgTitle ;;
  match validate_config with
  | [] =>
      print MsgConfiguration ;;
      let ha := HomeAssistant_init (HA_URL cfg) (HA_TOKEN cfg) in
      set_retry_count 0 ;;
      retry_loop ha polls sessions
  | errors => print (MsgConfigErrors errors) ;; raise (SystemExit 1)
  end.

End Supervisor.

(** The status the process ends with: [None] while it is still running. *)
Definition exit_status (r : res unit) : option Z :=
  match r with
  | Ok _ => Some 0
  | Raise (SystemExit status) => Some status
  | Raise _ => Some 1
  | Fuel => None
  end.

(** ** Observations on traces and replies *)

(** The data the serial port accepted, in order. *)
Fixpoint writes (evs : list event) : list string :=
  match evs with
  | EvWrite data :: rest => data :: writes rest
  | _ :: rest => writes rest
  | [] => []
  end.

(** The HTTP requests made, in order. *)
Fixpoint requests (evs : list event) : list event :=
  match evs with
  | EvGet u :: rest => EvGet u :: requests rest
  | EvPost u e :: rest => EvPost u e :: requests rest
  | _ :: rest => requests rest
  | [] => []
  end.

(** The number of sessions started. *)
Fixpoint sessions_started (evs : list event) : nat :=
  match evs with
  | EvPrint (MsgConnecting _) :: rest => S (sessions_started rest)
  | _ :: rest => sessions_started rest
  | [] => O
  end.

(** The number of retry waits completed. *)
Fixpoint retry_waits (evs : list event) : nat :=
  match evs with
  | EvSleep RetryDelay :: rest => S (retry_waits rest)
  | _ :: rest => retry_waits rest
  | [] => O
  end.

Definition has_member (key : string) (fields : list (string * json)) : bool :=
  existsb (fun kv => String.eqb (fst kv) key) fields.

(** A state query that failed: a transport error or timeout, a status other
    than 200, a body that is no JSON object, or an object with no
    ["state"] member. *)
Definition query_failed (r : http_reply) : bool :=
  match r with
  | HttpRaises _ => true
  | HttpResponse status_code body =>
      negb (status_code =? 200)
      || match body with
         | Some (JObj fields) => negb (has_member "state" fields)
         | _ => true
         end
  end.

(** A service call that succeeded. *)
Definition call_ok (r : http_reply) : bool :=
  match r with
  | HttpResponse status_code _ => status_code =? 200
  | HttpRaises _ => false
  end.

(** The URL [get_state] asks for, and the one [toggle] posts to. *)
Definition state_url (ha : HomeAssistant) (entity_id : string) : string :=
  url ha ++ "/api/states/" ++ entity_id.

Definition toggle_url (ha : HomeAssistant) (entity_id : string) : string :=
  let domain := hd "" (PyStr.split "." entity_id) in
  url ha ++ "/api/services/" ++ domain ++ "/"
  ++ (if String.eqb domain "scene" || String.eqb domain "script"
      then "turn_on" else "toggle").

(** A session that ended in a failure: an [Exception] other than the reset
    signal. *)
Definition is_failure (e : exn) : bool :=
  match e with
  | RestartRequested => false
  | _ => is_Exception e
  end.

Section Outcomes.
Variable cfg : Config.

(** The [except] clauses of [main], as a function of how the session
    ended. *)
Definition classify (r : res unit) : M loop_ctl :=
  match r with
  | Ok _ => ret Break
  | Fuel => fun _ s => (Fuel, s)
  | Raise KeyboardInterrupt => print MsgStoppedByUser ;; ret Break
  | Raise RestartRequested =>
      set_retry_count 0 ;; print MsgRestartingNow ;; ret Continue
  | Raise e =>
      if is_Exception e then
        n <- get_retry_count ;;
        set_retry_count (n + 1) ;;
        n' <- get_retry_count ;;
        if max_retries_reached cfg n' then
          print (MsgMaxRetries (match MAX_RETRIES cfg with Some m => m | None => 0 end)) ;;
          raise (SystemExit 1)
        else
          print (MsgErrorAttempt n') ;;
          i <- ask wait_interrupted ;;
          if i then print MsgStoppedDuringWait ;; ret Break
          else sleep RetryDelay ;; ret Continue
      else raise e
  end.

(** The supervisor fed with the ends of successive sessions, for as long
    as it keeps going. *)
Fixpoint supervise (outcomes : list (res unit)) : M loop_ctl :=
  match outcomes with
  | [] => ret Continue
  | r :: rest =>
      c <- classify r ;;
      match c with
      | Break => ret Break
      | Continue => supervise rest
      end
  end.
End Outcomes.

(** ** Fixtures: a configuration and some behaviours of the outside world *)

Definition demo_cfg : Config :=
  {| config_loaded := true;
     HA_URL := "http://ha.local:8123/";
     HA_TOKEN := "secret";
     SERIAL_PORT := "/dev/ttyACM0";
     BAUD_RATE := 115200;
     ENTITY_MAP := [(3, "switch.living_room_string_lights"); (5, "scene.movie")];
     MAX_RETRIES := None;
     QUIET_MODE := false |}.

Definition demo_ha : HomeAssistant :=
  HomeAssistant_init (HA_URL demo_cfg) (HA_TOKEN demo_cfg).

Definition state_doc (state : string) : option document :=
  Some (JObj [("entity_id", JStr "x"); ("state", JStr state)]).

(** Everything works, every entity is on, the keypad is silent. *)
Definition calm_env : Env :=
  {| ser_open := fun _ => None;
     ser_poll := fun _ => PollNothing;
     ser_write := fun _ _ => None;
     ser_flush := fun _ => None;
     ser_close := fun _ => None;
     http_get := fun _ _ => HttpResponse 200 (state_doc "on");
     http_post := fun _ _ _ => HttpResponse 200 None;
     wait_interrupted := fun _ => false |}.

(** As [calm_env], with Home Assistant answering every state query 500. *)
Definition remote_down_env : Env :=
  {| ser_open := fun _ => None;
     ser_poll := fun _ => PollNothing;
     ser_write := fun _ _ => None;
     ser_flush := fun _ => None;
     ser_close := fun _ => None;
     http_get := fun _ _ => HttpResponse 500 None;
     http_post := fun _ _ _ => HttpResponse 200 None;
     wait_interrupted := fun _ => false |}.

(** As [calm_env], with every serial write timing out. *)
Definition stuck_port_env : Env :=
  {| ser_open := fun _ => None;
     ser_poll := fun _ => PollNothing;
     ser_write := fun _ _ => Some IOTimeout;
     ser_flush := fun _ => None;
     ser_close := fun _ => None;
     http_get := fun _ _ => HttpResponse 200 (state_doc "on");
     http_post := fun _ _ _ => HttpResponse 200 None;
     wait_interrupted := fun _ => false |}.

(** The serial port cannot be opened. *)
Definition unplugged_env : Env :=
  {| ser_open := fun _ => Some IOTransport;
     ser_poll := fun _ => PollNothing;
     ser_write := fun _ _ => None;
     ser_flush := fun _ => None;
     ser_close := fun _ => None;
     http_get := fun _ _ => HttpResponse 200 (state_doc "on");
     http_post := fun _ _ _ => HttpResponse 200 None;
     wait_interrupted := fun _ => false |}.

(** As [calm_env], with the keypad sending [READY] at every poll. *)
Definition ready_env : Env :=
  {| ser_open := fun _ => None;
     ser_poll := fun _ => PollLine ("READY" ++ String "013" (String "010" ""));
     ser_write := fun _ _ => None;
     ser_flush := fun _ => None;
     ser_close := fun _ => None;
     http_get := fun _ _ => HttpResponse 200 (state_doc "on");
     http_post := fun _ _ _ => HttpResponse 200 None;
     wait_interrupted := fun _ => false |}.

(** As [calm_env], with the keypad's line arriving as [TOGGLE:x]. *)
Definition garbled_env : Env :=
  {| ser_open := fun _ => None;
     ser_poll := fun _ => PollLine ("TOGGLE:x" ++ String "013" (String "010" ""));
     ser_write := fun _ _ => None;
     ser_flush := fun _ => None;
     ser_close := fun _ => None;
     http_get := fun _ _ => HttpResponse 200 (state_doc "on");
     http_post := fun _ _ _ => HttpResponse 200 None;
     wait_interrupted := fun _ => false |}.

(** A session in progress: port open, loop running. *)
Definition open_state : State :=
  {| tick := 0; trace := []; ser := Some true; running := true;
     ready_count := 0; retry_count := 0 |}.

(** The same, after the first [READY]. *)
Definition synced_state : State :=
  {| tick := 0; trace := []; ser := Some true; running := true;
     ready_count := 1; retry_count := 0 |}.


(** ** Derived descriptions used in the statements *)

(** What [get_state] leaves behind: one request, one tick, and an error
    line when an exception was caught. *)
Definition get_state_events (ha : HomeAssistant) (entity_id : string) (r : http_reply) : list event :=
  EvGet (state_url ha entity_id)
  :: match r with
     | HttpRaises _ => [EvPrintErr (MsgErrState entity_id)]
     | HttpResponse status_code body =>
         if status_code =? 200 then
           match body with
           | Some (JObj _) => []
           | _ => [EvPrintErr (MsgErrState entity_id)]
           end
         else []
     end.

Definition get_state_value (r : http_reply) : json :=
  match r with
  | HttpResponse status_code (Some (JObj fields)) =>
      if status_code =? 200 then dict_get "state" fields else JNull
  | _ => JNull
  end.

Definition after (s : State) (ticks : nat) (evs : list event) : State :=
  {| tick := (tick s + ticks)%nat; trace := trace s ++ evs; ser := ser s;
     running := running s; ready_count := ready_count s;
     retry_count := retry_count s |}.


Definition toggle_events (ha : HomeAssistant) (entity_id : string) (r : http_reply) : list event :=
  EvPost (toggle_url ha entity_id) entity_id
  :: match r with
     | HttpRaises _ =>
         let domain := hd "" (PyStr.split "." entity_id) in
         [EvPrintErr (MsgErrCall domain
                        (if String.eqb domain "scene" || String.eqb domain "script"
                         then "turn_on" else "toggle"))]
     | HttpResponse _ _ => []
     end.

(** What [send_state] does with a line, by the state of the port: the
    interactions it makes and the events it leaves. *)
Definition send_effect (env : Env) (s : State) (data : string) : nat * list event :=
  match ser s with
  | Some true =>
      match ser_write env (tick s) data with
      | Some _ => (1%nat, [EvPrintErr MsgErrSend])
      | None =>
          match ser_flush env (S (tick s)) with
          | Some _ => (2%nat, [EvWrite data; EvPrintErr MsgErrSend])
          | None => (2%nat, [EvWrite data; EvFlush])
          end
      end
  | _ => (0%nat, [])
  end.

(** The port, in state [p] at tick [t], takes the line: it is open and the
    write does not fail. *)
Definition port_accepts (env : Env) (p : option bool) (t : nat) (data : string) : bool :=
  match p with
  | Some true => match ser_write env t data with None => true | Some _ => false end
  | _ => false
  end.

(** The events of a successful toggle up to and including the re-query's
    request. *)
Definition toggle_prefix (ha : HomeAssistant) (key_num : Z) (entity_id : string) : list event :=
  [EvPrint (MsgToggle key_num entity_id);
   EvPost (toggle_url ha entity_id) entity_id;
   EvPrint (MsgToggled entity_id);
   EvSleep SettleDelay;
   EvGet (state_url ha entity_id)].

(** The store after [handle_toggle] on a mapped key. *)
Definition toggled (ha : HomeAssistant) (key_num : Z) (entity_id : string)
    (env : Env) (s : State) : State :=
  let r := http_post env (tick s) (toggle_url ha entity_id) entity_id in
  let s1 := after s 1 (EvPrint (MsgToggle key_num entity_id) :: toggle_events ha entity_id r) in
  if call_ok r then
    let g := http_get env (tick s1) (state_url ha entity_id) in
    let s2 := after s1 1 ([EvPrint (MsgToggled entity_id); EvSleep SettleDelay]
                          ++ get_state_events ha entity_id g) in
    let line := state_line key_num (on_off (eq_on (get_state_value g))) in
    after s2 (fst (send_effect env s2 line)) (snd (send_effect env s2 line))
  else after s1 0 [EvPrint (MsgToggleFailed entity_id)].

(** The store after one key of the reconciliation pass. *)
Definition refreshed (ha : HomeAssistant) (key_num : Z) (entity_id : string)
    (env : Env) (s : State) : State :=
  let g := http_get env (tick s) (state_url ha entity_id) in
  let s1 := after s 1 (get_state_events ha entity_id g) in
  let state := on_off (eq_on (get_state_value g)) in
  let line := state_line key_num state in
  after (after s1 (fst (send_effect env s1 line)) (snd (send_effect env s1 line)))
        0 [EvPrint (MsgKeyState key_num entity_id state)].

(** A computation that leaves the supervisor's counter alone. *)
Definition keeps_retry {A} (m : M A) : Prop :=
  forall env s, retry_count (snd (m env s)) = retry_count s.

(** The store after a session that could not open the port. *)
Definition after_failed_connect (cfg : Config) (s : State) : State :=
  {| tick := S (tick s);
     trace := trace s ++ [EvPrint (MsgConnecting (SERIAL_PORT cfg)); EvPrintErr MsgConnectFailed];
     ser := None; running := false; ready_count := 0;
     retry_count := retry_count s |}.

(** The store after a failed session was counted and the retry wait
    completed. *)
Definition after_retry_wait (s : State) : State :=
  {| tick := S (tick s);
     trace := trace s ++ [EvPrint (MsgErrorAttempt (retry_count s + 1)); EvSleep RetryDelay];
     ser := ser s; running := running s; ready_count := ready_count s;
     retry_count := retry_count s + 1 |}.

(** The store after a failed session was counted and the bound was hit. *)
Definition after_abort (cfg : Config) (s : State) : State :=
  {| tick := tick s;
     trace := trace s ++ [EvPrint (MsgMaxRetries
                                     (match MAX_RETRIES cfg with Some m => m | None => 0 end))];
     ser := ser s; running := running s; ready_count := ready_count s;
     retry_count := retry_count s + 1 |}.

(** One failed connection attempt followed by the retry wait. *)
Definition failed_round (cfg : Config) (s : State) : State :=
  after_retry_wait (after_failed_connect cfg s).

(** The store [main] enters the retry loop with. *)
Definition main_start : State :=
  {| tick := 0; trace := [EvPrint MsgTitle; EvPrint MsgConfiguration];
     ser := None; running := false; ready_count := 0; retry_count := 0 |}.

(** The value of a decimal numeral read after [acc]. *)
Fixpoint uint_value (acc : Z) (d : Decimal.uint) : Z :=
  match d with
  | Decimal.Nil => acc
  | Decimal.D0 d' => uint_value (10 * acc + 0) d'
  | Decimal.D1 d' => uint_value (10 * acc + 1) d'
  | Decimal.D2 d' => uint_value (10 * acc + 2) d'
  | Decimal.D3 d' => uint_value (10 * acc + 3) d'
  | Decimal.D4 d' => uint_value (10 * acc + 4) d'
  | Decimal.D5 d' => uint_value (10 * acc + 5) d'
  | Decimal.D6 d' => uint_value (10 * acc + 6) d'
  | Decimal.D7 d' => uint_value (10 * acc + 7) d'
  | Decimal.D8 d' => uint_value (10 * acc + 8) d'
  | Decimal.D9 d' => uint_value (10 * acc + 9) d'
  end.

(** Every character of [s] satisfies [p]. *)
Fixpoint all_chars (p : ascii -> bool) (s : string) : bool :=
  match s with
  | EmptyString => true
  | String c s' => p c && all_chars p s'
  end.

Definition not_space (c : ascii) : bool := negb (PyStr.isspace c).

(** The characters of a decimal numeral: digits and the minus sign. *)
Definition numeral_char (c : ascii) : bool :=
  match PyStr.digit c with Some _ => true | None => Ascii.eqb c "-" end.

(** ** The keypad firmware's side of the protocol (code.py) *)

(** [send_command]: the bytes written to the USB serial console, when it
    is connected. *)
Definition send_command (connected : bool) (cmd : string) : list string :=
  if connected then [cmd ++ String "010" ""] else [].

(** The command a key press sends: [f"TOGGLE:{key_number}"]. *)
Definition press_command (key_number : Z) : string :=
  "TOGGLE:" ++ PyStr.of_int key_number.

(** The store after one interaction that left no event. *)
Definition ticked (s : State) : State :=
  {| tick := S (tick s); trace := trace s; ser := ser s; running := running s;
     ready_count := ready_count s; retry_count := retry_count s |}.

(** The store after the reconciliation pass over [items]. *)
Fixpoint refresh_all (ha : HomeAssistant) (items : list (Z * string))
    (env : Env) (s : State) : State :=
  match items with
  | [] => s
  | (key_num, entity_id) :: rest =>
      refresh_all ha rest env (refreshed ha key_num entity_id env s)
  end.

(** The lines of a reconciliation pass that starts at tick [t], when every
    write is accepted: each key takes three interactions (query, write,
    flush). *)
Fixpoint expected_lines (ha : HomeAssistant) (env : Env) (t : nat)
    (items : list (Z * string)) : list string :=
  match items with
  | [] => []
  | (key_num, entity_id) :: rest =>
      state_line key_num
        (on_off (eq_on (get_state_value (http_get env t (state_url ha entity_id)))))
      :: expected_lines ha env (t + 3) rest
  end.

(** The [try ... except (OSError, serial.SerialException)] of
    [read_serial] around a computation. *)
Definition guard_serial (m : M unit) : M unit :=
  try_except m is_OSError_or_Serial
    (fun _ => print_err MsgSerialError ;; raise ConnectionError).

(** The commands [handle_command] has a branch for. *)
Definition recognised (command : string) : bool :=
  String.eqb command "READY" || String.eqb command "HEARTBEAT"
  || PyStr.startswith "TOGGLE:" command
  || PyStr.startswith "DEBUG:" command || PyStr.startswith "ERROR:" command.

(** A computation that leaves the field [proj] of the store alone. *)
Definition preserves {X A : Type} (proj : State -> X) (m : M A) : Prop :=
  forall env s, proj (snd (m env s)) = proj s.

(** The store after the [finally] block of [run]. *)
Definition released (env : Env) (s : State) : State :=
  match ser s with
  | Some true =>
      match ser_close env (tick s) with
      | None =>
          {| tick := S (tick s);
             trace := trace s ++ [EvClose; EvSleep CloseDelay; EvPrint MsgBridgeStopped];
             ser := Some false; running := false;
             ready_count := ready_count s; retry_count := retry_count s |}
      | Some _ =>
          {| tick := S (tick s);
             trace := trace s ++ [EvPrint MsgBridgeStopped];
             ser := ser s; running := false;
             ready_count := ready_count s; retry_count := retry_count s |}
      end
  | _ =>
      {| tick := tick s;
         trace := trace s ++ [EvPrint MsgBridgeStopped];
         ser := ser s; running := false;
         ready_count := ready_count s; retry_count := retry_count s |}
  end.

(** The store [run] enters its loop with, after a successful [connect]. *)
Definition connected (cfg : Config) (s : State) : State :=
  {| tick := S (tick s);
     trace := trace s ++ [EvPrint (MsgConnecting (SERIAL_PORT cfg));
                          EvOpen (SERIAL_PORT cfg) (BAUD_RATE cfg);
                          EvSleep InitDelay; EvPrint MsgConnected;
                          EvPrint (MsgBanner (List.length (ENTITY_MAP cfg)))];
     ser := Some true; running := true;
     ready_count := ready_count s; retry_count := retry_count s |}.

(** The line [run] prints for the exception that ends its loop. *)
Definition farewell (e : exn) : list event :=
  match e with
  | KeyboardInterrupt => [EvPrint MsgShuttingDown]
  | RestartRequested => [EvPrint MsgRestart]
  | _ => if is_Exception e then [EvPrintErr MsgMainLoopError] else []
  end.

(** The store with a freshly constructed bridge object. *)
Definition fresh (s : State) : State :=
  {| tick := tick s; trace := trace s; ser := None; running := false;
     ready_count := 0; retry_count := retry_count s |}.

(** The store with some more events in its trace. *)
Definition logged (s : State) (evs : list event) : State :=
  {| tick := tick s; trace := trace s ++ evs; ser := ser s; running := running s;
     ready_count := ready_count s; retry_count := retry_count s |}.

(** ** Configuration loading (ha_bridge.py, module level) *)

(** [d[k] = v] on a dict in insertion order: an existing key keeps its
    place and takes the new value, a new key goes last. *)
Fixpoint dict_set (k : Z) (v : string) (d : list (Z * string)) : list (Z * string) :=
  match d with
  | [] => [(k, v)]
  | (k', v') :: d' => if k =? k' then (k', v) :: d' else (k', v') :: dict_set k v d'
  end.

(** [v[name]] / [name in v] on one entry of the ["keys"] section, a JSON
    object with string members. *)
Fixpoint member (name : string) (v : list (string * string)) : option string :=
  match v with
  | [] => None
  | (n, x) :: v' => if String.eqb n name then Some x else member name v'
  end.

(** The dict comprehension of [parse_entity_map], over the items still to
    visit; [None] stands for the [ValueError] of [int(k)]. *)
Fixpoint entity_items (items : list (string * list (string * string)))
    (acc : list (Z * string)) : option (list (Z * string)) :=
  match items with
  | [] => Some acc
  | (k, v) :: rest =>
      match member "entity_id" v with
      | Some entity_id =>
          match PyStr.py_int k with
          | Some n => entity_items rest (dict_set n entity_id acc)
          | None => None
          end
      | None => entity_items rest acc
      end
  end.

(** [parse_entity_map], applied to the ["keys"] section of the
    configuration. *)
Definition parse_entity_map (keys_config : list (string * list (string * string)))
    : option (list (Z * string)) :=
  match entity_items keys_config [] with
  | Some [] => Some [(3, "switch.living_room_string_lights")]
  | r => r
  end.
(** * Properties *)

(** ** Text primitives *)

Example strip_ready : PyStr.strip (String "028" " READY" ++ String "013" (String "010" (String "133" (String "160" "")))) = "READY".
Proof. reflexivity. Qed.

Example split_fields :
  PyStr.split ":" "TOGGLE:3:junk" = ["TOGGLE"; "3"; "junk"]
  /\ PyStr.split ":" "TOGGLE:" = ["TOGGLE"; ""]
  /\ PyStr.split ":" "TOGGLE::3" = ["TOGGLE"; ""; "3"]
  /\ PyStr.split "." "" = [""].
Proof. repeat split. Qed.

Example to_int_samples :
  map PyStr.to_int ["3"; " 3"; "3 "; "+3"; "-3"; "3_0"; "007"; String "009" "3" ++ String "010" ""; String "133" "3"]
  = [Some 3; Some 3; Some 3; Some 3; Some (-3); Some 30; Some 7; Some 3; Some 3]
  /\ map PyStr.to_int [""; "x"; "_3"; "3_"; "3__0"; " "; "+"; "- 3"; "0x10"; "3.0"; "3:"; String "028" "3"; "3" ++ String "000" ""]
  = [None; None; None; None; None; None; None; None; None; None; None; None; None].
Proof. split; reflexivity. Qed.

Example py_int_limit :
  PyStr.py_int (string_of_list_ascii (repeat "1"%char 4300)) <> None
  /\ PyStr.py_int (string_of_list_ascii (repeat "1"%char 4301)) = None
  /\ PyStr.py_int (string_of_list_ascii (repeat "0"%char 4301)) = None
  /\ map PyStr.py_int ["3"; " 007 "; "-3"; "x"; ""] = [Some 3; Some 7; Some (-3); None; None].
Proof.
  split; [|split; [|split]].
  - destruct (PyStr.py_int _) eqn:E; [discriminate|]. vm_compute in E. discriminate E.
  - vm_compute. reflexivity.
  - vm_compute. reflexivity.
  - reflexivity.
Qed.

Example of_int_samples :
  map PyStr.of_int [0; 3; -3; 1205] = ["0"; "3"; "-3"; "1205"].
Proof. reflexivity. Qed.

(** ** The effect monad *)

Ltac run_m :=
  cbv beta iota delta [bind ret raise log print print_err sleep ask get_ser set_ser
                  get_running set_running get_ready_count set_ready_count
                  get_retry_count set_retry_count try_except try_finally] in *;
  cbn [fst snd tick trace ser running ready_count retry_count] in *.

Lemma dict_get_missing key fields :
  has_member key fields = false -> dict_get key fields = JNull.
Proof.
  unfold has_member.
  induction fields as [|[k v] rest IH]; simpl; intros H; [reflexivity|].
  apply orb_false_iff in H as [Hk Hrest].
  rewrite Hrest, Hk. reflexivity.
Qed.

(** ** The REST client *)

Lemma get_state_run ha entity_id env s :
  let r := http_get env (tick s) (state_url ha entity_id) in
  get_state ha entity_id env s
  = (Ok (get_state_value r), after s 1 (get_state_events ha entity_id r)).
Proof.
  unfold get_state, get_state_events, get_state_value, after, state_url. run_m.
  destruct (http_get env (tick s) _) as [e|c [[fields|]|]]; run_m;
    try destruct (c =? 200); run_m;
    rewrite <- ?app_assoc, ?Nat.add_1_r; reflexivity.
Qed.

Lemma get_state_value_failed r :
  query_failed r = true -> get_state_value r = JNull.
Proof.
  destruct r as [e|c [[fields|]|]]; simpl; try reflexivity;
    destruct (c =? 200); simpl; try reflexivity.
  intros H. apply dict_get_missing. now apply negb_true_iff.
Qed.

(** C7. [get_state] never raises: whatever the remote side does, it returns a
    value; and when the query fails (timeout or transport error, a status
    other than 200, a body without a ["state"] member) the value is [None]. *)
Theorem get_state_never_raises :
  forall ha entity_id env s,
    (exists v s', get_state ha entity_id env s = (Ok v, s'))
    /\ (query_failed (http_get env (tick s) (state_url ha entity_id)) = true ->
        exists s', get_state ha entity_id env s = (Ok JNull, s')).
Proof.
  intros ha entity_id env s. rewrite get_state_run. cbv zeta. split.
  - eauto.
  - intros H. rewrite (get_state_value_failed _ H). eauto.
Qed.

Lemma get_state_never_raises_witness :
  query_failed (http_get remote_down_env (tick open_state) (state_url demo_ha "light.desk")) = true
  /\ exists s', get_state demo_ha "light.desk" remote_down_env open_state = (Ok JNull, s').
Proof.
  split; [reflexivity|].
  apply (proj2 (get_state_never_raises demo_ha "light.desk" remote_down_env open_state)).
  reflexivity.
Defined.

Lemma after_0_nil s : after s 0 [] = s.
Proof. destruct s; unfold after; simpl. now rewrite Nat.add_0_r, app_nil_r. Qed.

Lemma after_after s n1 e1 n2 e2 :
  after (after s n1 e1) n2 e2 = after s (n1 + n2) (e1 ++ e2).
Proof. unfold after; simpl. now rewrite Nat.add_assoc, app_assoc. Qed.

Lemma is_on_run ha entity_id env s :
  let r := http_get env (tick s) (state_url ha entity_id) in
  is_on ha entity_id env s
  = (Ok (eq_on (get_state_value r)), after s 1 (get_state_events ha entity_id r)).
Proof. unfold is_on, bind. rewrite get_state_run. reflexivity. Qed.

Lemma toggle_run ha entity_id env s :
  let r := http_post env (tick s) (toggle_url ha entity_id) entity_id in
  toggle ha entity_id env s
  = (Ok (call_ok r), after s 1 (toggle_events ha entity_id r)).
Proof.
  unfold toggle, call_service, toggle_events, toggle_url, after. run_m.
  destruct (http_post env (tick s) _ entity_id) as [e|c b]; run_m;
    rewrite <- ?app_assoc, ?Nat.add_1_r; reflexivity.
Qed.

Lemma send_state_run key_num state env s :
  send_state key_num state env s
  = (Ok tt, after s (fst (send_effect env s (state_line key_num state)))
                    (snd (send_effect env s (state_line key_num state)))).
Proof.
  unfold send_state, send_effect, after. run_m.
  destruct (ser s) as [[|]|] eqn:Hser; run_m.
  - destruct (ser_write env (tick s) _); run_m.
    + rewrite Nat.add_1_r, ?Hser. reflexivity.
    + destruct (ser_flush env (S (tick s))); run_m;
        rewrite <- ?app_assoc, ?Hser; simpl;
        replace (tick s + 2)%nat with (S (S (tick s))) by lia; reflexivity.
  - rewrite Nat.add_0_r, app_nil_r. destruct s; simpl in *; subst; reflexivity.
  - rewrite Nat.add_0_r, app_nil_r. destruct s; simpl in *; subst; reflexivity.
Qed.

Lemma writes_app e1 e2 : writes (e1 ++ e2) = (writes e1 ++ writes e2)%list.
Proof.
  induction e1 as [|e rest IH]; simpl; [reflexivity|].
  destruct e; simpl; rewrite ?IH; reflexivity.
Qed.

Lemma requests_app e1 e2 : requests (e1 ++ e2) = (requests e1 ++ requests e2)%list.
Proof.
  induction e1 as [|e rest IH]; simpl; [reflexivity|].
  destruct e; simpl; rewrite ?IH; reflexivity.
Qed.

Lemma writes_get_state_events ha entity_id r :
  writes (get_state_events ha entity_id r) = [].
Proof.
  unfold get_state_events. simpl.
  destruct r as [e|c [[f|]|]]; try destruct (c =? 200); reflexivity.
Qed.

Lemma writes_toggle_events ha entity_id r :
  writes (toggle_events ha entity_id r) = [].
Proof. unfold toggle_events. destruct r; reflexivity. Qed.

Lemma writes_send_effect env s data :
  writes (snd (send_effect env s data))
  = if port_accepts env (ser s) (tick s) data then [data] else [].
Proof.
  unfold send_effect, port_accepts.
  destruct (ser s) as [[|]|]; try reflexivity.
  destruct (ser_write env (tick s) data); try reflexivity.
  destruct (ser_flush env (S (tick s))); reflexivity.
Qed.

Lemma requests_send_effect env s data :
  requests (snd (send_effect env s data)) = [].
Proof.
  unfold send_effect.
  destruct (ser s) as [[|]|]; try reflexivity.
  destruct (ser_write env (tick s) data); try reflexivity.
  destruct (ser_flush env (S (tick s))); reflexivity.
Qed.

(** ** Sending a state line *)

(** C10. [send_state] never raises.  With no port, or a closed one, it does
    nothing at all; when the write fails the error is printed, nothing
    reaches the keypad, and the session's fields are untouched. *)
Theorem send_state_best_effort :
  forall key_num state env s,
    exists s',
      send_state key_num state env s = (Ok tt, s')
      /\ ser s' = ser s /\ running s' = running s
      /\ ready_count s' = ready_count s /\ retry_count s' = retry_count s
      /\ (ser s <> Some true -> s' = s)
      /\ (ser s = Some true ->
          ser_write env (tick s) (state_line key_num state) <> None ->
          trace s' = (trace s ++ [EvPrintErr MsgErrSend])%list).
Proof.
  intros key_num state env s.
  rewrite send_state_run. eexists; split; [reflexivity|].
  repeat split; try reflexivity.
  - intros H. unfold send_effect.
    destruct (ser s) as [[|]|]; try congruence; apply after_0_nil.
  - intros Hs Hw. unfold send_effect. rewrite Hs.
    destruct (ser_write env (tick s) _); [reflexivity|congruence].
Qed.

Lemma send_state_best_effort_witness :
  exists s',
    send_state 3 "on" stuck_port_env open_state = (Ok tt, s')
    /\ trace s' = [EvPrintErr MsgErrSend].
Proof.
  destruct (send_state_best_effort 3 "on" stuck_port_env open_state)
    as (s' & Hrun & _ & _ & _ & _ & _ & Hlost).
  exists s'. split; [exact Hrun|].
  apply Hlost; [reflexivity|discriminate].
Defined.

(** ** Toggle dispatch *)

Lemma handle_toggle_mapped cfg ha key_num entity_id env s :
  lookup key_num (ENTITY_MAP cfg) = Some entity_id ->
  handle_toggle cfg ha key_num env s = (Ok tt, toggled ha key_num entity_id env s).
Proof.
  intros Hk. unfold handle_toggle, toggled. rewrite Hk.
  unfold bind at 1. unfold print at 1, log.
  unfold bind at 1. rewrite toggle_run. cbv zeta. cbn [tick].
  set (r := http_post env (tick s) (toggle_url ha entity_id) entity_id).
  assert (Hs1 : after {| tick := tick s;
                         trace := (trace s ++ [EvPrint (MsgToggle key_num entity_id)])%list;
                         ser := ser s; running := running s;
                         ready_count := ready_count s; retry_count := retry_count s |}
                      1 (toggle_events ha entity_id r)
                = after s 1 (EvPrint (MsgToggle key_num entity_id) :: toggle_events ha entity_id r)).
  { unfold after; simpl. now rewrite <- app_assoc. }
  rewrite Hs1. set (s1 := after s 1 _).
  destruct (call_ok r).
  - unfold bind at 1, print at 1, log. unfold bind at 1, sleep at 1, log.
    unfold bind at 1. rewrite is_on_run. cbv zeta. cbn [tick trace ser running ready_count retry_count].
    rewrite send_state_run.
    set (g := http_get env (tick s1) (state_url ha entity_id)).
    assert (Hs2 : after {| tick := tick s1;
                           trace := ((trace s1 ++ [EvPrint (MsgToggled entity_id)])
                                     ++ [EvSleep SettleDelay])%list;
                           ser := ser s1; running := running s1;
                           ready_count := ready_count s1; retry_count := retry_count s1 |}
                        1 (get_state_events ha entity_id g)
                  = after s1 1 ([EvPrint (MsgToggled entity_id); EvSleep SettleDelay]
                                ++ get_state_events ha entity_id g)).
    { unfold after; simpl. now rewrite <- !app_assoc. }
    rewrite Hs2. reflexivity.
  - unfold print, log, after. simpl. now rewrite Nat.add_0_r.
Qed.

Lemma split_not_nil sep s : PyStr.split sep s <> [].
Proof.
  destruct s as [|c s']; simpl; [discriminate|].
  destruct (Ascii.eqb c sep); [discriminate|].
  destruct (PyStr.split sep s'); discriminate.
Qed.

Lemma split_cons sep c s :
  PyStr.split sep (String c s)
  = if Ascii.eqb c sep then EmptyString :: PyStr.split sep s
    else String c (hd "" (PyStr.split sep s)) :: tl (PyStr.split sep s).
Proof.
  simpl. destruct (Ascii.eqb c sep); [reflexivity|].
  destruct (PyStr.split sep s) eqn:E; [now apply split_not_nil in E|reflexivity].
Qed.

(** A [TOGGLE:] line is dispatched on its second colon-separated field. *)
Lemma handle_command_toggle cfg ha rest :
  handle_command cfg ha ("TOGGLE:" ++ rest)
  = match PyStr.py_int (hd "" (PyStr.split ":" rest)) with
    | Some key_num => handle_toggle cfg ha key_num
    | None => raise ValueError
    end.
Proof.
  unfold handle_command.
  change ("TOGGLE:" ++ rest) with
    (String "T" (String "O" (String "G" (String "G" (String "L" (String "E" (String ":" rest))))))).
  cbn [String.eqb Ascii.eqb Bool.eqb PyStr.startswith andb].
  rewrite !split_cons. cbn [Ascii.eqb Bool.eqb hd tl].
  destruct (PyStr.split ":" rest) eqn:E; [now apply split_not_nil in E|reflexivity].
Qed.

(** C9. A toggle for a key that is not in the entity map only prints a line:
    no request is made, nothing is written to the keypad, no interaction with
    the outside world takes place and every field of the session is as
    before.  This holds for the handler and for every [TOGGLE:] line that
    names such a key. *)
Theorem toggle_unmapped_is_noop :
  forall cfg ha key_num env s,
    lookup key_num (ENTITY_MAP cfg) = None ->
    let s' := {| tick := tick s;
                 trace := trace s ++ [EvPrint (MsgNotMapped key_num)];
                 ser := ser s; running := running s;
                 ready_count := ready_count s; retry_count := retry_count s |} in
    handle_toggle cfg ha key_num env s = (Ok tt, s')
    /\ (forall rest,
          PyStr.py_int (hd "" (PyStr.split ":" rest)) = Some key_num ->
          handle_command cfg ha ("TOGGLE:" ++ rest) env s = (Ok tt, s'))
    /\ writes [EvPrint (MsgNotMapped key_num)] = []
    /\ requests [EvPrint (MsgNotMapped key_num)] = [].
Proof.
  intros cfg ha key_num env s Hk s'.
  assert (H : handle_toggle cfg ha key_num env s = (Ok tt, s')).
  { unfold handle_toggle. rewrite Hk. reflexivity. }
  repeat split; [exact H|].
  intros rest Hint. rewrite handle_command_toggle, Hint. exact H.
Qed.

Lemma toggle_unmapped_is_noop_witness :
  handle_command demo_cfg demo_ha "TOGGLE:7" calm_env open_state
  = (Ok tt, {| tick := 0; trace := [EvPrint (MsgNotMapped 7)];
               ser := Some true; running := true;
               ready_count := 0; retry_count := 0 |}).
Proof.
  exact (proj1 (proj2 (toggle_unmapped_is_noop demo_cfg demo_ha 7 calm_env open_state eq_refl))
           "7" eq_refl).
Defined.

(** ** Lines that are not well formed *)

(** C1 (as the code behaves). A [TOGGLE:] line whose key field [int]
    rejects makes [handle_command] raise [ValueError]; [read_serial] does not
    catch it, so the exception leaves the dispatcher instead of the line
    being dropped. *)
Theorem toggle_bad_integer_raises :
  forall cfg ha rest env s,
    PyStr.py_int (hd "" (PyStr.split ":" rest)) = None ->
    handle_command cfg ha ("TOGGLE:" ++ rest) env s = (Raise ValueError, s)
    /\ (forall line,
          ser s = Some true ->
          ser_poll env (tick s) = PollLine line ->
          PyStr.strip line = "TOGGLE:" ++ rest ->
          read_serial cfg ha env s = (Raise ValueError, after s 1 [])).
Proof.
  intros cfg ha rest env s Hint.
  assert (H : forall s0, handle_command cfg ha ("TOGGLE:" ++ rest) env s0 = (Raise ValueError, s0)).
  { intros s0. rewrite handle_command_toggle, Hint. reflexivity. }
  split; [apply H|].
  intros line Hser Hpoll Hstrip.
  unfold read_serial. run_m. rewrite Hser. run_m. rewrite Hpoll.
  destruct line as [|c line']; [discriminate Hstrip|].
  cbn [String.eqb]. rewrite Hstrip, H. cbn [is_OSError_or_Serial].
  unfold after. simpl. now rewrite Nat.add_1_r, app_nil_r, Hser.
Qed.

Lemma toggle_bad_integer_raises_witness :
  handle_command demo_cfg demo_ha "TOGGLE:x" garbled_env open_state
  = (Raise ValueError, open_state)
  /\ read_serial demo_cfg demo_ha garbled_env open_state
     = (Raise ValueError, after open_state 1 []).
Proof.
  destruct (toggle_bad_integer_raises demo_cfg demo_ha "x" garbled_env open_state eq_refl)
    as [Hcmd Hread].
  split; [exact Hcmd|].
  exact (Hread _ eq_refl eq_refl eq_refl).
Defined.

(** ** Toggling a mapped key *)

Lemma tl_get_state_events_silent ha entity_id g :
  writes (tl (get_state_events ha entity_id g)) = []
  /\ requests (tl (get_state_events ha entity_id g)) = [].
Proof.
  unfold get_state_events. cbn [tl].
  destruct g as [e|c [[f|]|]]; try destruct (c =? 200); split; reflexivity.
Qed.

Lemma toggled_ok ha key_num entity_id env s :
  call_ok (http_post env (tick s) (toggle_url ha entity_id) entity_id) = true ->
  let g := http_get env (S (tick s)) (state_url ha entity_id) in
  let line := state_line key_num (on_off (eq_on (get_state_value g))) in
  exists tail,
    trace (toggled ha key_num entity_id env s)
    = (trace s ++ toggle_prefix ha key_num entity_id ++ tail)%list
    /\ writes tail = (if port_accepts env (ser s) (tick s + 2) line then [line] else [])
    /\ requests tail = [].
Proof.
  intros Hr. cbv zeta. unfold toggled. rewrite Hr.
  assert (Hr' : toggle_events ha entity_id
                  (http_post env (tick s) (toggle_url ha entity_id) entity_id)
                = [EvPost (toggle_url ha entity_id) entity_id]).
  { unfold toggle_events.
    destruct (http_post env (tick s) _ entity_id); [discriminate Hr|reflexivity]. }
  rewrite Hr'.
  replace (tick (after s 1 [EvPrint (MsgToggle key_num entity_id);
                            EvPost (toggle_url ha entity_id) entity_id]))
    with (S (tick s)) by (simpl; lia).
  set (g := http_get env (S (tick s)) (state_url ha entity_id)).
  set (line := state_line key_num (on_off (eq_on (get_state_value g)))).
  match goal with |- context [send_effect env ?st line] => set (s2 := st) end.
  exists (tl (get_state_events ha entity_id g) ++ snd (send_effect env s2 line))%list.
  destruct (tl_get_state_events_silent ha entity_id g) as [Hw Hq].
  split; [|split].
  - unfold after at 1. cbn [trace]. subst s2. unfold after. cbn [trace].
    unfold toggle_prefix, get_state_events. cbn [tl app].
    rewrite <- !app_assoc. reflexivity.
  - rewrite writes_app, writes_send_effect, Hw.
    subst s2. unfold after. cbn [ser tick app].
    replace (tick s + 1 + 1)%nat with (tick s + 2)%nat by lia. reflexivity.
  - rewrite requests_app, requests_send_effect, Hq. reflexivity.
Qed.

Lemma toggled_failed ha key_num entity_id env s :
  let r := http_post env (tick s) (toggle_url ha entity_id) entity_id in
  call_ok r = false ->
  trace (toggled ha key_num entity_id env s)
  = (trace s ++ EvPrint (MsgToggle key_num entity_id) :: toggle_events ha entity_id r
     ++ [EvPrint (MsgToggleFailed entity_id)])%list.
Proof.
  cbv zeta. intros Hr. unfold toggled. rewrite Hr.
  unfold after. cbn [trace]. now rewrite <- app_assoc.
Qed.

Lemma writes_toggle_prefix ha key_num entity_id :
  writes (toggle_prefix ha key_num entity_id) = []
  /\ requests (toggle_prefix ha key_num entity_id)
     = [EvPost (toggle_url ha entity_id) entity_id; EvGet (state_url ha entity_id)].
Proof. split; reflexivity. Qed.

(** C8 (as the code behaves). Toggling a mapped key: when the service call
    succeeds the bridge waits the settle delay and queries the state again;
    when that query succeeds, one [STATE:] line for the key, carrying "on"
    exactly when the re-queried state is "on", is handed to the port: it
    reaches the keypad when the port is open and the write does not fail, and
    is lost otherwise.  When the service call fails, no line is sent and no
    state query is made. *)
Theorem toggle_emits_state_line :
  forall cfg ha key_num entity_id env s,
    lookup key_num (ENTITY_MAP cfg) = Some entity_id ->
    let r := http_post env (tick s) (toggle_url ha entity_id) entity_id in
    let g := http_get env (S (tick s)) (state_url ha entity_id) in
    let line := state_line key_num (on_off (eq_on (get_state_value g))) in
    exists s' evs,
      handle_toggle cfg ha key_num env s = (Ok tt, s')
      /\ trace s' = (trace s ++ evs)%list
      /\ (call_ok r = true ->
          (exists tail, evs = (toggle_prefix ha key_num entity_id ++ tail)%list
                        /\ requests tail = [])
          /\ (query_failed g = false ->
              writes evs
              = if port_accepts env (ser s) (tick s + 2) line then [line] else []))
      /\ (call_ok r = false ->
          writes evs = []
          /\ requests evs = [EvPost (toggle_url ha entity_id) entity_id]).
Proof.
  intros cfg ha key_num entity_id env s Hk r g line.
  rewrite (handle_toggle_mapped _ _ _ _ _ _ Hk).
  destruct (call_ok r) eqn:Hr.
  - destruct (toggled_ok ha key_num entity_id env s Hr) as (tail & Htr & Hw & Hq).
    exists (toggled ha key_num entity_id env s),
           (toggle_prefix ha key_num entity_id ++ tail)%list.
    split; [reflexivity|]. split; [exact Htr|]. split; [|discriminate].
    intros _. split; [now exists tail|].
    intros _. rewrite writes_app, Hw. reflexivity.
  - pose proof (toggled_failed ha key_num entity_id env s Hr) as Htr.
    eexists _, _. split; [reflexivity|]. split; [exact Htr|]. split; [discriminate|].
    intros _. fold r. unfold toggle_events.
    destruct r; split; reflexivity.
Qed.

Lemma toggle_emits_state_line_witness :
  exists s' evs,
    handle_toggle demo_cfg demo_ha 3 calm_env open_state = (Ok tt, s')
    /\ trace s' = evs
    /\ writes evs = ["STATE:3:on" ++ String "010" ""].
Proof.
  destruct (toggle_emits_state_line demo_cfg demo_ha 3 _ calm_env open_state eq_refl)
    as (s' & evs & Hrun & Htr & Hok & _).
  exists s', evs. split; [exact Hrun|]. split; [exact Htr|].
  exact (proj2 (Hok eq_refl) eq_refl).
Defined.

(** C8 (as stated) fails: the key is mapped and the service call succeeds,
    yet no [STATE:] line is emitted, because the write to the port times
    out and [send_state] swallows the error. *)
Lemma toggle_line_lost_on_write_error :
  lookup 5 (ENTITY_MAP demo_cfg) = Some "scene.movie"
  /\ call_ok (http_post stuck_port_env (tick open_state)
                (toggle_url demo_ha "scene.movie") "scene.movie") = true
  /\ exists s',
       handle_toggle demo_cfg demo_ha 5 stuck_port_env open_state = (Ok tt, s')
       /\ writes (trace s') = []
       /\ List.length (writes (trace s')) <> 1%nat.
Proof.
  split; [reflexivity|]. split; [reflexivity|].
  exists (toggled demo_ha 5 "scene.movie" stuck_port_env open_state).
  split; [now apply handle_toggle_mapped|].
  split; [vm_compute; reflexivity|]. vm_compute. discriminate.
Qed.

(** ** The reconciliation pass *)

Lemma refresh_items_cons ha key_num entity_id rest env s :
  refresh_items ha ((key_num, entity_id) :: rest) env s
  = refresh_items ha rest env (refreshed ha key_num entity_id env s).
Proof.
  cbn [refresh_items]. unfold bind at 1. unfold try_except.
  unfold bind at 1. rewrite is_on_run. cbv zeta.
  unfold bind at 1. rewrite send_state_run.
  unfold print, log, refreshed, after. simpl.
  rewrite !Nat.add_0_r. reflexivity.
Qed.

Lemma refreshed_trace ha key_num entity_id env s :
  let g := http_get env (tick s) (state_url ha entity_id) in
  let state := on_off (eq_on (get_state_value g)) in
  let line := state_line key_num state in
  exists noise flushed,
    trace (refreshed ha key_num entity_id env s)
    = (trace s ++ EvGet (state_url ha entity_id) :: noise ++ flushed
       ++ [EvPrint (MsgKeyState key_num entity_id state)])%list
    /\ (noise = [] \/ noise = [EvPrintErr (MsgErrState entity_id)])
    /\ writes flushed = (if port_accepts env (ser s) (S (tick s)) line then [line] else [])
    /\ requests flushed = []
    /\ ~ In (EvPrintErr (MsgErrRefresh key_num)) flushed.
Proof.
  cbv zeta.
  set (g := http_get env (tick s) (state_url ha entity_id)).
  set (line := state_line key_num (on_off (eq_on (get_state_value g)))).
  exists (tl (get_state_events ha entity_id g)),
         (snd (send_effect env (after s 1 (get_state_events ha entity_id g)) line)).
  split; [|split; [|split; [|split]]].
  - unfold refreshed. fold g. fold line. unfold after. cbn [trace].
    unfold get_state_events at 1 4. cbn [tl]. rewrite <- !app_assoc. reflexivity.
  - unfold get_state_events. cbn [tl].
    destruct g as [e|c [[f|]|]]; try destruct (c =? 200); auto.
  - rewrite writes_send_effect. unfold after. cbn [ser tick].
    now rewrite Nat.add_1_r.
  - apply requests_send_effect.
  - unfold send_effect.
    destruct (ser _) as [[|]|]; cbn [snd]; try (intros []).
    destruct (ser_write _ _ _); [intros [H|[]]; discriminate H|].
    destruct (ser_flush _ _); intros [H|[H|[]]]; discriminate H.
Qed.

Lemma refreshed_failed ha key_num entity_id env s :
  query_failed (http_get env (tick s) (state_url ha entity_id)) = true ->
  exists evs,
    trace (refreshed ha key_num entity_id env s) = (trace s ++ evs)%list
    /\ writes evs
       = (if port_accepts env (ser s) (S (tick s)) (state_line key_num "off")
          then [state_line key_num "off"] else [])
    /\ In (EvPrint (MsgKeyState key_num entity_id "off")) evs
    /\ ~ In (EvPrintErr (MsgErrRefresh key_num)) evs.
Proof.
  intros Hfail.
  destruct (refreshed_trace ha key_num entity_id env s)
    as (noise & flushed & Htr & Hnoise & Hw & _ & Hno).
  cbv zeta in *. rewrite (get_state_value_failed _ Hfail) in *. cbn [eq_on on_off] in *.
  eexists. split; [exact Htr|]. split; [|split].
  - cbn [writes]. rewrite !writes_app, Hw. cbn [writes].
    rewrite app_nil_r. destruct Hnoise as [-> | ->]; reflexivity.
  - right. apply in_or_app. right. apply in_or_app. right. now left.
  - intros [H|H]; [discriminate H|].
    apply in_app_or in H as [H|H].
    + destruct Hnoise as [-> | ->]; [destruct H|].
      destruct H as [H|[]]; discriminate H.
    + apply in_app_or in H as [H|H]; [now apply Hno|].
      destruct H as [H|[]]; discriminate H.
Qed.

(** C2 (as the code behaves). A failed state query makes [get_state] return
    [None], and [is_on] turns that into [False]: the reconciliation pass then
    reports the key as "off", exactly as for an entity that is off. *)
Theorem failed_query_reads_as_off :
  forall ha key_num entity_id rest env s,
    query_failed (http_get env (tick s) (state_url ha entity_id)) = true ->
    (exists s1, get_state ha entity_id env s = (Ok JNull, s1))
    /\ (exists s2, is_on ha entity_id env s = (Ok false, s2))
    /\ (exists s3,
          refresh_items ha ((key_num, entity_id) :: rest) env s
          = refresh_items ha rest env s3
          /\ In (EvPrint (MsgKeyState key_num entity_id "off")) (trace s3)).
Proof.
  intros ha key_num entity_id rest env s Hfail. split; [|split].
  - rewrite get_state_run. cbv zeta. rewrite (get_state_value_failed _ Hfail). eauto.
  - rewrite is_on_run. cbv zeta. rewrite (get_state_value_failed _ Hfail). eauto.
  - rewrite refresh_items_cons. eexists. split; [reflexivity|].
    destruct (refreshed_failed ha key_num entity_id env s Hfail) as (evs & -> & _ & Hin & _).
    apply in_or_app. now right.
Qed.

Lemma failed_query_reads_as_off_witness :
  exists s2, is_on demo_ha "light.desk" remote_down_env open_state = (Ok false, s2).
Proof.
  exact (proj1 (proj2 (failed_query_reads_as_off demo_ha 3 "light.desk" []
                         remote_down_env open_state eq_refl))).
Defined.

(** C3 (as the code behaves). In the reconciliation pass a key whose state
    query fails is not skipped: the pass sends [STATE:<key>:off] for it, never
    reaches its own error branch, and goes on with the remaining keys. *)
Theorem refresh_failed_key_not_skipped :
  forall ha key_num entity_id rest env s,
    query_failed (http_get env (tick s) (state_url ha entity_id)) = true ->
    port_accepts env (ser s) (S (tick s)) (state_line key_num "off") = true ->
    exists s' evs,
      refresh_items ha ((key_num, entity_id) :: rest) env s
      = refresh_items ha rest env s'
      /\ trace s' = (trace s ++ evs)%list
      /\ writes evs = [state_line key_num "off"]
      /\ ~ In (EvPrintErr (MsgErrRefresh key_num)) evs.
Proof.
  intros ha key_num entity_id rest env s Hfail Hport.
  destruct (refreshed_failed ha key_num entity_id env s Hfail) as (evs & Htr & Hw & _ & Hno).
  rewrite Hport in Hw.
  exists (refreshed ha key_num entity_id env s), evs.
  split; [apply refresh_items_cons|]. auto.
Qed.

Lemma refresh_failed_key_not_skipped_witness :
  exists s' evs,
    refresh_items demo_ha [(3, "switch.living_room_string_lights"); (5, "scene.movie")]
      remote_down_env open_state
    = refresh_items demo_ha [(5, "scene.movie")] remote_down_env s'
    /\ trace s' = evs
    /\ writes evs = ["STATE:3:off" ++ String "010" ""].
Proof.
  destruct (refresh_failed_key_not_skipped demo_ha 3 "switch.living_room_string_lights"
              [(5, "scene.movie")] remote_down_env open_state eq_refl eq_refl)
    as (s' & evs & Hrun & Htr & Hw & _).
  exists s', evs. auto.
Defined.

(** ** The session loop and the supervisor *)

Lemma handle_command_ready cfg ha env s :
  handle_command cfg ha "READY" env s
  = if 1 <? ready_count s + 1
    then (Raise RestartRequested,
          {| tick := tick s; trace := trace s ++ [EvPrint MsgResetDetected];
             ser := ser s; running := running s;
             ready_count := ready_count s + 1; retry_count := retry_count s |})
    else refresh_states cfg ha env
           {| tick := tick s; trace := trace s ++ [EvPrint MsgReadySync];
              ser := ser s; running := running s;
              ready_count := ready_count s + 1; retry_count := retry_count s |}.
Proof.
  unfold handle_command. cbn [String.eqb Ascii.eqb Bool.eqb]. run_m.
  destruct (1 <? ready_count s + 1); reflexivity.
Qed.

(** The supervisor's turn is the session's end passed to the [except]
    clauses. *)
Lemma attempt_classify cfg ha polls env s :
  attempt cfg ha polls env s
  = classify cfg (fst ((KeybowBridge_init ;; run cfg ha polls) env s)) env
                 (snd ((KeybowBridge_init ;; run cfg ha polls) env s)).
Proof.
  unfold attempt, KeybowBridge_init. run_m.
  destruct (run cfg ha polls env _) as [[[]|e|] s1];
    cbn [fst snd classify]; try reflexivity.
  destruct e; reflexivity.
Qed.

(** C4. A second [READY] in a session is a reset, not a reconciliation: the
    dispatcher raises [RestartRequested] having only printed a line; the
    session's loop lets it through, releases the port and re-raises it without
    any request or write; and the supervisor answers [RestartRequested] by
    clearing its counter and starting the next session at once, with no retry
    wait. *)
Theorem second_ready_resets :
  forall cfg ha env s,
    1 <= ready_count s ->
    handle_command cfg ha "READY" env s
    = (Raise RestartRequested,
       {| tick := tick s; trace := trace s ++ [EvPrint MsgResetDetected];
          ser := ser s; running := running s;
          ready_count := ready_count s + 1; retry_count := retry_count s |})
    /\ (forall fuel line,
          running s = true -> ser s = Some true ->
          ser_poll env (tick s) = PollLine line ->
          PyStr.strip line = "READY" ->
          exists s' evs,
            run_guarded cfg ha (S fuel) env s = (Raise RestartRequested, s')
            /\ trace s' = (trace s ++ evs)%list
            /\ requests evs = [] /\ writes evs = []
            /\ running s' = false /\ ser s' <> None)
    /\ (forall polls s0 s1,
          (KeybowBridge_init ;; run cfg ha polls) env s0 = (Raise RestartRequested, s1) ->
          attempt cfg ha polls env s0
          = (Ok Continue,
             {| tick := tick s1; trace := trace s1 ++ [EvPrint MsgRestartingNow];
                ser := ser s1; running := running s1;
                ready_count := ready_count s1; retry_count := 0 |})).
Proof.
  intros cfg ha env s Hcount.
  assert (Hcmd : forall s0, ready_count s0 = ready_count s ->
            handle_command cfg ha "READY" env s0
            = (Raise RestartRequested,
               {| tick := tick s0; trace := trace s0 ++ [EvPrint MsgResetDetected];
                  ser := ser s0; running := running s0;
                  ready_count := ready_count s0 + 1; retry_count := retry_count s0 |})).
  { intros s0 H0. rewrite handle_command_ready, H0.
    replace (1 <? ready_count s + 1) with true by (symmetry; apply Z.ltb_lt; lia).
    reflexivity. }
  split; [now apply Hcmd|]. split.
  - intros fuel line Hrun Hser Hpoll Hstrip.
    unfold run_guarded, try_finally, try_except. cbn [run_loop].
    unfold bind at 1. unfold get_running. rewrite Hrun.
    unfold bind at 1. unfold read_serial. unfold bind at 1. unfold get_ser. rewrite Hser.
    unfold try_except. unfold bind at 1. unfold ask. rewrite Hpoll.
    destruct line as [|c line']; [discriminate Hstrip|].
    cbn [String.eqb]. rewrite Hstrip, Hcmd by reflexivity.
    cbn [is_OSError_or_Serial]. unfold release. run_m. rewrite Hser. run_m.
    destruct (ser_close env (S (tick s))); run_m.
    + eexists _, _. split; [reflexivity|]. cbn [trace running ser].
      split; [rewrite <- !app_assoc; reflexivity|].
      repeat split; discriminate.
    + eexists _, _. split; [reflexivity|]. cbn [trace running ser].
      split; [rewrite <- !app_assoc; reflexivity|].
      repeat split; discriminate.
  - intros polls s0 s1 Hend. rewrite attempt_classify, Hend. reflexivity.
Qed.

Lemma second_ready_resets_witness :
  exists s' evs,
    run_guarded demo_cfg demo_ha 1 ready_env synced_state = (Raise RestartRequested, s')
    /\ trace s' = evs /\ requests evs = [] /\ writes evs = [].
Proof.
  destruct (second_ready_resets demo_cfg demo_ha ready_env synced_state) as (_ & Hloop & _).
  { simpl. lia. }
  destruct (Hloop O _ eq_refl eq_refl eq_refl eq_refl) as (s' & evs & Hrun & Htr & Hq & Hw & _).
  exists s', evs. auto.
Defined.

(** *** The session never touches the supervisor's counter *)

Create HintDb keeps.

Lemma keeps_ret A (a : A) : keeps_retry (ret a).
Proof. intros env s; reflexivity. Qed.

Lemma keeps_raise A e : keeps_retry (@raise A e).
Proof. intros env s; reflexivity. Qed.

Lemma keeps_log e : keeps_retry (log e).
Proof. intros env s; reflexivity. Qed.

Lemma keeps_ask A (f : Env -> nat -> A) : keeps_retry (ask f).
Proof. intros env s; reflexivity. Qed.

Lemma keeps_bind A B (m : M A) (k : A -> M B) :
  keeps_retry m -> (forall a, keeps_retry (k a)) -> keeps_retry (bind m k).
Proof.
  intros Hm Hk env s. unfold bind. specialize (Hm env s).
  destruct (m env s) as [[a|e|] s1]; cbn [snd] in *; [|assumption..].
  now rewrite Hk.
Qed.

Lemma keeps_try_except A (m : M A) caught h :
  keeps_retry m -> (forall e, keeps_retry (h e)) -> keeps_retry (try_except m caught h).
Proof.
  intros Hm Hh env s. unfold try_except. specialize (Hm env s).
  destruct (m env s) as [[a|e|] s1]; cbn [snd] in *; try assumption.
  destruct (caught e); cbn [snd]; [|assumption]. now rewrite Hh.
Qed.

Lemma keeps_try_finally A (m : M A) f :
  keeps_retry m -> keeps_retry f -> keeps_retry (try_finally m f).
Proof.
  intros Hm Hf env s. unfold try_finally. specialize (Hm env s).
  destruct (m env s) as [[a|e|] s1]; cbn [snd] in *; try assumption;
    specialize (Hf env s1); destruct (f env s1) as [[[]|e'|] s2]; cbn [snd] in *; congruence.
Qed.

Lemma keeps_fuel A : keeps_retry (fun (_ : Env) (s : State) => (@Fuel A, s)).
Proof. intros env s; reflexivity. Qed.

#[local] Hint Resolve keeps_ret keeps_raise keeps_log keeps_ask keeps_fuel : keeps.
#[local] Hint Extern 1 (keeps_retry (print _)) => apply keeps_log : keeps.
#[local] Hint Extern 1 (keeps_retry (print_err _)) => apply keeps_log : keeps.
#[local] Hint Extern 1 (keeps_retry (sleep _)) => apply keeps_log : keeps.
#[local] Hint Extern 1 (keeps_retry get_ser) => intros ? ?; reflexivity : keeps.
#[local] Hint Extern 1 (keeps_retry (set_ser _)) => intros ? ?; reflexivity : keeps.
#[local] Hint Extern 1 (keeps_retry get_running) => intros ? ?; reflexivity : keeps.
#[local] Hint Extern 1 (keeps_retry (set_running _)) => intros ? ?; reflexivity : keeps.
#[local] Hint Extern 1 (keeps_retry get_ready_count) => intros ? ?; reflexivity : keeps.
#[local] Hint Extern 1 (keeps_retry (set_ready_count _)) => intros ? ?; reflexivity : keeps.

Ltac keeps :=
  repeat first
    [ progress auto with keeps
    | apply keeps_bind; [|intros ?]
    | apply keeps_try_except; [|intros ?]
    | apply keeps_try_finally
    | match goal with
      | |- keeps_retry (match ?x with _ => _ end) => destruct x
      | |- keeps_retry (if ?x then _ else _) => destruct x
      end ].

Lemma keeps_is_on ha entity_id : keeps_retry (is_on ha entity_id).
Proof. unfold is_on, get_state. keeps. Qed.

Lemma keeps_toggle ha entity_id : keeps_retry (toggle ha entity_id).
Proof. unfold toggle, call_service. keeps. Qed.

Lemma keeps_send_state key_num state : keeps_retry (send_state key_num state).
Proof. unfold send_state. keeps. Qed.

#[local] Hint Resolve keeps_is_on keeps_toggle keeps_send_state : keeps.

Lemma keeps_refresh_items ha items : keeps_retry (refresh_items ha items).
Proof.
  induction items as [|[k e] rest IH]; cbn [refresh_items]; keeps.
Qed.

Lemma keeps_handle_toggle cfg ha key_num : keeps_retry (handle_toggle cfg ha key_num).
Proof. unfold handle_toggle. keeps. Qed.

#[local] Hint Resolve keeps_refresh_items keeps_handle_toggle : keeps.

Lemma keeps_handle_command cfg ha command : keeps_retry (handle_command cfg ha command).
Proof. unfold handle_command, refresh_states. keeps. Qed.

#[local] Hint Resolve keeps_handle_command : keeps.

Lemma keeps_read_serial cfg ha : keeps_retry (read_serial cfg ha).
Proof. unfold read_serial. keeps. Qed.

#[local] Hint Resolve keeps_read_serial : keeps.

Lemma keeps_run_loop cfg ha fuel : keeps_retry (run_loop cfg ha fuel).
Proof. induction fuel as [|fuel IH]; cbn [run_loop]; keeps. Qed.

#[local] Hint Resolve keeps_run_loop : keeps.

Lemma keeps_run cfg ha fuel : keeps_retry (run cfg ha fuel).
Proof. unfold run, run_guarded, release, connect. keeps. Qed.

Lemma keeps_session cfg ha fuel : keeps_retry (KeybowBridge_init ;; run cfg ha fuel).
Proof. unfold KeybowBridge_init. pose proof (keeps_run cfg ha fuel). keeps. Qed.

(** *** The [except] clauses of [main] *)

Lemma classify_reset cfg env s :
  classify cfg (Raise RestartRequested) env s
  = (Ok Continue,
     {| tick := tick s; trace := trace s ++ [EvPrint MsgRestartingNow];
        ser := ser s; running := running s;
        ready_count := ready_count s; retry_count := 0 |}).
Proof. reflexivity. Qed.

Lemma classify_failure_eq cfg e env s :
  is_failure e = true ->
  classify cfg (Raise e) env s
  = if max_retries_reached cfg (retry_count s + 1)
    then (Raise (SystemExit 1), after_abort cfg s)
    else if wait_interrupted env (tick s)
         then (Ok Break,
               {| tick := S (tick s);
                  trace := (trace s ++ [EvPrint (MsgErrorAttempt (retry_count s + 1))])
                           ++ [EvPrint MsgStoppedDuringWait];
                  ser := ser s; running := running s; ready_count := ready_count s;
                  retry_count := retry_count s + 1 |})
         else (Ok Continue, after_retry_wait s).
Proof.
  intros He.
  assert (H : classify cfg (Raise e) env s
              = (n <- get_retry_count ;;
                 set_retry_count (n + 1) ;;
                 n' <- get_retry_count ;;
                 if max_retries_reached cfg n' then
                   print (MsgMaxRetries (match MAX_RETRIES cfg with Some m => m | None => 0 end)) ;;
                   raise (SystemExit 1)
                 else
                   print (MsgErrorAttempt n') ;;
                   i <- ask wait_interrupted ;;
                   if i then print MsgStoppedDuringWait ;; ret Break
                   else sleep RetryDelay ;; ret Continue) env s).
  { destruct e; try discriminate He; reflexivity. }
  rewrite H. run_m.
  destruct (max_retries_reached cfg (retry_count s + 1)); run_m; [reflexivity|].
  destruct (wait_interrupted env (tick s)); run_m; [reflexivity|].
  unfold after_retry_wait. cbn [tick trace ser running ready_count retry_count].
  now rewrite <- app_assoc.
Qed.

Lemma classify_failure cfg e env s :
  is_failure e = true ->
  exists r s1,
    classify cfg (Raise e) env s = (r, s1)
    /\ retry_count s1 = retry_count s + 1
    /\ (r = Raise (SystemExit 1) \/ r = Ok Break \/ r = Ok Continue).
Proof.
  intros He. rewrite (classify_failure_eq _ _ _ _ He).
  destruct (max_retries_reached cfg (retry_count s + 1));
    [|destruct (wait_interrupted env (tick s))];
    eexists _, _; (split; [reflexivity|]); split; auto.
Qed.

Lemma classify_retry_count cfg r env s :
  let s' := snd (classify cfg r env s) in
  match r with
  | Raise RestartRequested => retry_count s' = 0
  | Raise e => if is_failure e then retry_count s' = retry_count s + 1
               else retry_count s' = retry_count s
  | _ => retry_count s' = retry_count s
  end.
Proof.
  cbv zeta. destruct r as [[]|e|]; try reflexivity.
  destruct e; try reflexivity;
    (cbn [is_failure is_Exception];
     match goal with
     | |- context [classify cfg (Raise ?e)] =>
         destruct (classify_failure cfg e env s eq_refl) as (r & s1 & -> & H & _); exact H
     end).
Qed.

Lemma supervise_cons cfg r rest env s :
  supervise cfg (r :: rest) env s
  = match classify cfg r env s with
    | (Ok Continue, s1) => supervise cfg rest env s1
    | (Ok Break, s1) => (Ok Break, s1)
    | (Raise e, s1) => (Raise e, s1)
    | (Fuel, s1) => (Fuel, s1)
    end.
Proof.
  cbn [supervise]. unfold bind.
  destruct (classify cfg r env s) as [[[]|e|] s1]; reflexivity.
Qed.

(** C5. The supervisor's counter moves only at the end of a session: a
    failure adds one, the reset signal clears it, anything else leaves it; the
    session itself never touches it.  Fed with [failure, failure, reset,
    failure], a supervisor that is still going afterwards has the counter at
    1; started fresh it ends with 1 or 2 (2 when the bound or the operator
    stopped it at the second failure), never 3.  With no bound and no
    interrupt it is still going. *)
Theorem retry_counter_discipline :
  forall cfg,
    (forall ha polls env s,
       let r := fst ((KeybowBridge_init ;; run cfg ha polls) env s) in
       let s' := snd (attempt cfg ha polls env s) in
       match r with
       | Raise RestartRequested => retry_count s' = 0
       | Raise e => if is_failure e then retry_count s' = retry_count s + 1
                    else retry_count s' = retry_count s
       | _ => retry_count s' = retry_count s
       end)
    /\ (forall e1 e2 e4 env s r s',
          is_failure e1 = true -> is_failure e2 = true -> is_failure e4 = true ->
          supervise cfg [Raise e1; Raise e2; Raise RestartRequested; Raise e4] env s = (r, s') ->
          (r = Ok Continue -> retry_count s' = 1)
          /\ (retry_count s = 0 -> retry_count s' = 1 \/ retry_count s' = 2))
    /\ (forall e1 e2 e4 env s,
          is_failure e1 = true -> is_failure e2 = true -> is_failure e4 = true ->
          MAX_RETRIES cfg = None ->
          (forall t, wait_interrupted env t = false) ->
          exists s',
            supervise cfg [Raise e1; Raise e2; Raise RestartRequested; Raise e4] env s
            = (Ok Continue, s')
            /\ retry_count s' = 1).
Proof.
  intros cfg. split; [|split].
  - intros ha polls env s. cbv zeta. rewrite attempt_classify.
    pose proof (keeps_session cfg ha polls env s) as Hkeep.
    pose proof (classify_retry_count cfg
                  (fst ((KeybowBridge_init ;; run cfg ha polls) env s)) env
                  (snd ((KeybowBridge_init ;; run cfg ha polls) env s))) as H.
    cbv zeta in H. rewrite Hkeep in H. exact H.
  - intros e1 e2 e4 env s r s' H1 H2 H4 Hrun.
    rewrite supervise_cons in Hrun.
    destruct (classify_failure cfg e1 env s H1) as (r1 & s1 & E1 & C1 & [ -> | [ -> | -> ] ]);
      rewrite E1 in Hrun;
      [injection Hrun as <- <-; split; [discriminate|lia]..|].
    rewrite supervise_cons in Hrun.
    destruct (classify_failure cfg e2 env s1 H2) as (r2 & s2 & E2 & C2 & [ -> | [ -> | -> ] ]);
      rewrite E2 in Hrun;
      [injection Hrun as <- <-; split; [discriminate|lia]..|].
    rewrite supervise_cons, classify_reset, supervise_cons in Hrun.
    match type of Hrun with context [classify cfg (Raise e4) env ?s3] =>
      destruct (classify_failure cfg e4 env s3 H4) as (r4 & s4 & E4 & C4 & Hr4);
      rewrite E4 in Hrun; cbn [retry_count] in C4
    end.
    destruct Hr4 as [ -> | [ -> | -> ] ]; cbn [supervise ret] in Hrun;
      injection Hrun as <- <-; split; intros; lia.
  - intros e1 e2 e4 env s H1 H2 H4 Hmax Hwait.
    assert (Hno : forall n, max_retries_reached cfg n = false).
    { intros n. unfold max_retries_reached. now rewrite Hmax. }
    rewrite supervise_cons, (classify_failure_eq _ _ _ _ H1), Hno, Hwait.
    rewrite supervise_cons, (classify_failure_eq _ _ _ _ H2), Hno, Hwait.
    rewrite supervise_cons, classify_reset.
    rewrite supervise_cons, (classify_failure_eq _ _ _ _ H4), Hno, Hwait.
    eexists. split; reflexivity.
Qed.

Lemma retry_counter_discipline_witness :
  exists s',
    supervise demo_cfg
      [Raise ConnectionError; Raise ValueError; Raise RestartRequested; Raise ConnectionError]
      calm_env init_state
    = (Ok Continue, s')
    /\ retry_count s' = 1.
Proof.
  exact (proj2 (proj2 (retry_counter_discipline demo_cfg))
           ConnectionError ValueError ConnectionError calm_env init_state
           eq_refl eq_refl eq_refl eq_refl (fun _ => eq_refl)).
Defined.

(** *** A port that cannot be opened *)

Lemma session_connect_failed cfg ha polls env s :
  ser_open env (tick s) <> None ->
  (KeybowBridge_init ;; run cfg ha polls) env s
  = (Raise ConnectionError, after_failed_connect cfg s).
Proof.
  intros Hopen. unfold KeybowBridge_init, run, connect. run_m.
  destruct (ser_open env (tick s)); [|congruence]. run_m.
  unfold after_failed_connect. now rewrite <- app_assoc.
Qed.

Lemma attempt_connect_failed cfg ha polls env s :
  ser_open env (tick s) <> None ->
  attempt cfg ha polls env s
  = classify cfg (Raise ConnectionError) env (after_failed_connect cfg s).
Proof.
  intros Hopen. now rewrite attempt_classify, session_connect_failed.
Qed.

Lemma failed_rounds_count cfg n s :
  retry_count (Nat.iter n (failed_round cfg) s) = retry_count s + Z.of_nat n.
Proof.
  induction n as [|n IH]; [simpl; lia|].
  rewrite Nat.iter_succ. unfold failed_round at 1. cbn [after_retry_wait retry_count after_failed_connect].
  rewrite IH. lia.
Qed.

Lemma sessions_started_app e1 e2 :
  sessions_started (e1 ++ e2) = (sessions_started e1 + sessions_started e2)%nat.
Proof.
  induction e1 as [|e rest IH]; [reflexivity|].
  destruct e as [| | | | | | |m|]; simpl; rewrite ?IH; try reflexivity.
  destruct m; simpl; rewrite ?IH; reflexivity.
Qed.

Lemma retry_waits_app e1 e2 :
  retry_waits (e1 ++ e2) = (retry_waits e1 + retry_waits e2)%nat.
Proof.
  induction e1 as [|e rest IH]; [reflexivity|].
  destruct e as [| | | | | |d| |]; simpl; rewrite ?IH; try reflexivity.
  destruct d; simpl; rewrite ?IH; reflexivity.
Qed.

Lemma failed_rounds_trace cfg n s :
  sessions_started (trace (Nat.iter n (failed_round cfg) s))
  = (sessions_started (trace s) + n)%nat
  /\ retry_waits (trace (Nat.iter n (failed_round cfg) s))
     = (retry_waits (trace s) + n)%nat.
Proof.
  induction n as [|n [IH1 IH2]]; [simpl; lia|].
  rewrite Nat.iter_succ. unfold failed_round at 1 3.
  cbn [after_retry_wait after_failed_connect trace].
  rewrite !sessions_started_app, !retry_waits_app, IH1, IH2. simpl. lia.
Qed.

(** While the bound is not hit and nobody interrupts, [n] failed
    connection attempts take the retry loop through [n] rounds. *)
Lemma retry_loop_failing cfg ha polls env n :
  (forall t, ser_open env t <> None) ->
  (forall t, wait_interrupted env t = false) ->
  forall m s,
    (forall k, (k < n)%nat ->
               max_retries_reached cfg (retry_count s + Z.of_nat k + 1) = false) ->
    retry_loop cfg ha polls (n + m) env s
    = retry_loop cfg ha polls m env (Nat.iter n (failed_round cfg) s).
Proof.
  intros Hopen Hwait. induction n as [|n IH]; intros m s Hmax; [reflexivity|].
  rewrite Nat.iter_succ_r. rewrite <- IH.
  - cbn [Nat.add retry_loop]. unfold bind at 1.
    rewrite attempt_connect_failed by apply Hopen.
    rewrite classify_failure_eq by reflexivity.
    cbn [after_failed_connect retry_count].
    specialize (Hmax O ltac:(lia)). rewrite Z.add_0_r in Hmax. rewrite Hmax, Hwait.
    reflexivity.
  - intros k Hk. unfold failed_round.
    cbn [after_retry_wait after_failed_connect retry_count].
    specialize (Hmax (S k) ltac:(lia)).
    rewrite <- Hmax. f_equal. lia.
Qed.

Lemma main_valid cfg polls sessions env :
  validate_config cfg = [] ->
  main cfg polls sessions env init_state
  = retry_loop cfg (HomeAssistant_init (HA_URL cfg) (HA_TOKEN cfg)) polls sessions env main_start.
Proof.
  intros Hvalid. unfold main. rewrite Hvalid. reflexivity.
Qed.

(** C6. With [MAX_RETRIES = 3] and a port that can never be opened, the
    supervisor runs exactly three sessions: each one fails and is counted, two
    retry waits lie between them, and at the third failure the counter reaches
    the bound and the process exits with status 1.  With no bound, any number
    [n] of such failures leaves the supervisor still going, its counter at
    [n], and no exit status. *)
Theorem retry_bound :
  forall cfg env polls,
    validate_config cfg = [] ->
    (forall t, ser_open env t <> None) ->
    (forall t, wait_interrupted env t = false) ->
    (MAX_RETRIES cfg = Some 3 ->
     forall sessions, (3 <= sessions)%nat ->
       exists s',
         main cfg polls sessions env init_state = (Raise (SystemExit 1), s')
         /\ exit_status (fst (main cfg polls sessions env init_state)) = Some 1
         /\ retry_count s' = 3
         /\ sessions_started (trace s') = 3%nat
         /\ retry_waits (trace s') = 2%nat)
    /\ (MAX_RETRIES cfg = None ->
        forall n,
          exists s',
            main cfg polls n env init_state = (Fuel, s')
            /\ exit_status (fst (main cfg polls n env init_state)) = None
            /\ retry_count s' = Z.of_nat n
            /\ sessions_started (trace s') = n
            /\ retry_waits (trace s') = n).
Proof.
  intros cfg env polls Hvalid Hopen Hwait. split.
  - intros Hmax sessions Hsessions.
    assert (Hreached : forall n, max_retries_reached cfg n = (3 <=? n)).
    { intros n. unfold max_retries_reached. now rewrite Hmax. }
    assert (Hmain : main cfg polls sessions env init_state
                    = (Raise (SystemExit 1),
                       after_abort cfg
                         (after_failed_connect cfg
                            (failed_round cfg (failed_round cfg main_start))))).
    { rewrite (main_valid _ _ _ _ Hvalid).
      replace sessions with (2 + S (sessions - 3))%nat by lia.
      rewrite (retry_loop_failing _ _ _ _ 2 Hopen Hwait).
      2:{ intros k Hk. rewrite Hreached. cbn [main_start retry_count].
          apply Z.leb_gt. lia. }
      cbn [retry_loop]. unfold bind at 1.
      rewrite attempt_connect_failed by apply Hopen.
      rewrite classify_failure_eq by reflexivity.
      rewrite Hreached. reflexivity. }
    rewrite Hmain. eexists. split; [reflexivity|]. repeat split.
  - intros Hmax n.
    assert (Hno : forall k, max_retries_reached cfg k = false).
    { intros k. unfold max_retries_reached. now rewrite Hmax. }
    assert (Hmain : main cfg polls n env init_state
                    = (Fuel, Nat.iter n (failed_round cfg) main_start)).
    { rewrite (main_valid _ _ _ _ Hvalid).
      replace n with (n + 0)%nat at 1 by lia.
      rewrite (retry_loop_failing _ _ _ _ n Hopen Hwait) by (intros; apply Hno).
      reflexivity. }
    rewrite Hmain. eexists. split; [reflexivity|].
    split; [reflexivity|]. split.
    + now rewrite failed_rounds_count.
    + apply failed_rounds_trace.
Qed.

Lemma retry_bound_witness :
  exists s',
    main {| config_loaded := true; HA_URL := "http://ha.local:8123"; HA_TOKEN := "secret";
            SERIAL_PORT := "/dev/ttyACM0"; BAUD_RATE := 115200;
            ENTITY_MAP := [(3, "switch.living_room_string_lights")];
            MAX_RETRIES := Some 3; QUIET_MODE := false |}
         10 5 unplugged_env init_state
    = (Raise (SystemExit 1), s')
    /\ retry_count s' = 3
    /\ sessions_started (trace s') = 3%nat.
Proof.
  destruct (proj1 (retry_bound
                     {| config_loaded := true; HA_URL := "http://ha.local:8123"; HA_TOKEN := "secret";
                        SERIAL_PORT := "/dev/ttyACM0"; BAUD_RATE := 115200;
                        ENTITY_MAP := [(3, "switch.living_room_string_lights")];
                        MAX_RETRIES := Some 3; QUIET_MODE := false |}
                     unplugged_env 10%nat eq_refl
                     (fun _ H => ltac:(discriminate H)) (fun _ => eq_refl))
              eq_refl 5%nat ltac:(lia))
    as (s' & Hrun & _ & Hcount & Hstarted & _).
  exists s'. auto.
Defined.

(** * Further properties of the code *)

(** ** Integers on the wire: [str] and [int] *)

Lemma digits_of_uint d acc :
  PyStr.digits acc false (NilEmpty.string_of_uint d) = Some (uint_value acc d, "").
Proof.
  revert acc. induction d; intros acc; cbn [NilEmpty.string_of_uint uint_value];
    [reflexivity | cbn [PyStr.digits]; change (PyStr.digit _) with (Some 0) || idtac ..].
  all: cbn -[Z.mul Z.add uint_value PyStr.digits NilEmpty.string_of_uint]; apply IHd.
Qed.

Lemma uint_value_pos d acc :
  uint_value (Z.pos acc) d = Z.pos (Pos.of_uint_acc d acc).
Proof.
  revert acc. induction d; intros acc; cbn [uint_value Pos.of_uint_acc];
    [reflexivity | ..];
    match goal with
    | |- uint_value ?a _ = Z.pos (Pos.of_uint_acc _ ?b) =>
        replace a with (Z.pos b) by lia; apply IHd
    end.
Qed.

Lemma uint_value_zero d : uint_value 0 d = Z.of_N (Pos.of_uint d).
Proof.
  induction d; cbn [uint_value Pos.of_uint]; [reflexivity | exact IHd | ..];
    cbn [Z.mul Z.add Z.of_N]; apply uint_value_pos.
Qed.

Lemma to_int_of_uint d :
  d <> Decimal.Nil ->
  PyStr.to_int (NilEmpty.string_of_uint d) = Some (Z.of_N (Pos.of_uint d))
  /\ PyStr.to_int (String "-" (NilEmpty.string_of_uint d)) = Some (- Z.of_N (Pos.of_uint d)).
Proof.
  intros Hd. rewrite <- uint_value_zero.
  pose proof (digits_of_uint d 0) as Hdigits.
  destruct d; [congruence | ..]; cbn [NilEmpty.string_of_uint] in *;
    unfold PyStr.to_int; cbn [PyStr.skip_space PyStr.int_space PyStr.code N_of_ascii
                               N.leb N.eqb N.compare Pos.compare Pos.compare_cont Pos.eqb
                               andb orb N_of_digits N.add N.mul Pos.add Pos.mul Pos.succ
                               PyStr.magnitude PyStr.digit];
    rewrite Hdigits; split; reflexivity.
Qed.

(** [int(str(n)) == n] for every integer. *)
Lemma to_int_of_int n : PyStr.to_int (PyStr.of_int n) = Some n.
Proof.
  unfold PyStr.of_int. destruct n as [|p|p]; [reflexivity | ..];
    cbn [Z.to_int NilZero.string_of_int];
    pose proof (DecimalPos.Unsigned.to_uint_nonnil p) as Hnil;
    pose proof (DecimalPos.Unsigned.of_to p) as Hval;
    destruct (to_int_of_uint _ Hnil) as [Hpos Hneg];
    rewrite Hval in *;
    unfold NilZero.string_of_uint;
    destruct (Pos.to_uint p) eqn:E; try congruence; rewrite <- E in *; assumption.
Qed.

Lemma py_int_none s : PyStr.to_int s = None -> PyStr.py_int s = None.
Proof. unfold PyStr.py_int. now intros ->. Qed.

Lemma py_int_some s n : PyStr.py_int s = Some n -> PyStr.to_int s = Some n.
Proof.
  unfold PyStr.py_int. destruct (PyStr.to_int s) as [v|]; [|discriminate].
  destruct (PyStr.digit_count s <=? PyStr.int_max_str_digits)%N; congruence.
Qed.

(** [int(str(n)) == n] for every integer whose numeral stays within the
    digit limit. *)
Lemma py_int_of_int n :
  (PyStr.digit_count (PyStr.of_int n) <=? PyStr.int_max_str_digits)%N = true ->
  PyStr.py_int (PyStr.of_int n) = Some n.
Proof. intros H. unfold PyStr.py_int. now rewrite to_int_of_int, H. Qed.

(** The numerals of the keypad's sixteen keys are short. *)
Lemma key_numeral_short n :
  0 <= n < 16 ->
  (PyStr.digit_count (PyStr.of_int n) <=? PyStr.int_max_str_digits)%N = true.
Proof.
  intros H. destruct n as [|p|p]; [reflexivity | | lia].
  do 5 (try destruct p as [p|p|]); try reflexivity; lia.
Qed.

Lemma all_chars_app p s1 s2 :
  all_chars p (s1 ++ s2) = all_chars p s1 && all_chars p s2.
Proof.
  induction s1 as [|c s1 IH]; cbn [append all_chars]; [reflexivity|].
  now rewrite IH, andb_assoc.
Qed.

Lemma all_chars_weaken (p q : ascii -> bool) s :
  (forall c, p c = true -> q c = true) ->
  all_chars p s = true -> all_chars q s = true.
Proof.
  intros Hpq. induction s as [|c s IH]; cbn [all_chars]; [reflexivity|].
  intros H. apply andb_true_iff in H as [Hc Hs]. now rewrite (Hpq _ Hc), IH.
Qed.

Lemma uint_chars d : all_chars numeral_char (NilEmpty.string_of_uint d) = true.
Proof. induction d; cbn [NilEmpty.string_of_uint all_chars]; [reflexivity | exact IHd ..]. Qed.

Lemma of_int_chars n : all_chars numeral_char (PyStr.of_int n) = true.
Proof.
  unfold PyStr.of_int.
  destruct n as [|p|p]; [reflexivity | ..]; cbn [Z.to_int NilZero.string_of_int];
    unfold NilZero.string_of_uint; destruct (Pos.to_uint p) eqn:E;
    rewrite <- ?E; cbn [all_chars]; try reflexivity; apply uint_chars.
Qed.

Lemma numeral_char_cases c :
  numeral_char c = true ->
  not_space c = true /\ Ascii.eqb c ":" = false.
Proof.
  unfold numeral_char, not_space, PyStr.digit, PyStr.isspace, PyStr.code.
  destruct (Ascii.eqb c "-") eqn:Hminus.
  - apply Ascii.eqb_eq in Hminus. subst c. intros _. split; reflexivity.
  - destruct ((48 <=? N_of_ascii c) && (N_of_ascii c <=? 57))%N eqn:Hd; [|discriminate].
    intros _. apply andb_true_iff in Hd as [H1 H2].
    apply N.leb_le in H1, H2. split.
    + set (n := N_of_ascii c) in *.
      destruct (N.leb_spec 9 n), (N.leb_spec n 13), (N.leb_spec 28 n),
        (N.leb_spec n 32), (N.eqb_spec n 133), (N.eqb_spec n 160);
        cbn; try reflexivity; lia.
    + apply Ascii.eqb_neq. intros ->. simpl in H2. lia.
Qed.

Lemma rstrip_no_space s : all_chars not_space s = true -> PyStr.rstrip s = s.
Proof.
  induction s as [|c s IH]; cbn [all_chars PyStr.rstrip]; [reflexivity|].
  intros H. apply andb_true_iff in H as [Hc Hs]. rewrite (IH Hs).
  unfold not_space in Hc. apply negb_true_iff in Hc. rewrite Hc.
  destruct s; reflexivity.
Qed.

Lemma rstrip_all_space w : all_chars PyStr.isspace w = true -> PyStr.rstrip w = "".
Proof.
  induction w as [|c w IH]; cbn [all_chars PyStr.rstrip]; [reflexivity|].
  intros H. apply andb_true_iff in H as [Hc Hw]. now rewrite (IH Hw), Hc.
Qed.

(** Trailing whitespace does not change what [rstrip] returns. *)
Lemma rstrip_app_space s w :
  all_chars PyStr.isspace w = true -> PyStr.rstrip (s ++ w) = PyStr.rstrip s.
Proof.
  intros Hw. induction s as [|c s IH]; cbn [append PyStr.rstrip].
  - now apply rstrip_all_space.
  - now rewrite IH.
Qed.

Lemma lstrip_app_space w s :
  all_chars PyStr.isspace w = true -> PyStr.lstrip (w ++ s) = PyStr.lstrip s.
Proof.
  induction w as [|c w IH]; cbn [append all_chars PyStr.lstrip]; [reflexivity|].
  intros H. apply andb_true_iff in H as [Hc Hw]. now rewrite Hc, IH.
Qed.

Lemma lstrip_app_head s w :
  PyStr.lstrip s <> "" -> PyStr.lstrip (s ++ w) = PyStr.lstrip s ++ w.
Proof.
  induction s as [|c s IH]; cbn [append PyStr.lstrip]; [congruence|].
  destruct (PyStr.isspace c); [exact IH | reflexivity].
Qed.

Lemma lstrip_all_space s :
  PyStr.lstrip s = "" -> all_chars PyStr.isspace s = true.
Proof.
  induction s as [|c s IH]; cbn [PyStr.lstrip all_chars]; [reflexivity|].
  destruct (PyStr.isspace c); [exact IH | discriminate].
Qed.

Lemma split_no_sep sep s :
  all_chars (fun c => negb (Ascii.eqb c sep)) s = true -> PyStr.split sep s = [s].
Proof.
  induction s as [|c s IH]; cbn [all_chars]; [reflexivity|].
  intros H. apply andb_true_iff in H as [Hc Hs].
  rewrite split_cons, (IH Hs). apply negb_true_iff in Hc. now rewrite Hc.
Qed.

Lemma of_int_no_space n : all_chars not_space (PyStr.of_int n) = true.
Proof.
  apply (all_chars_weaken numeral_char); [|apply of_int_chars].
  intros c Hc. now apply numeral_char_cases.
Qed.

Lemma of_int_no_colon n :
  all_chars (fun c => negb (Ascii.eqb c ":")) (PyStr.of_int n) = true.
Proof.
  apply (all_chars_weaken numeral_char); [|apply of_int_chars].
  intros c Hc. apply negb_true_iff. now apply numeral_char_cases.
Qed.

Lemma handle_toggle_returns cfg ha key_num env s :
  exists s', handle_toggle cfg ha key_num env s = (Ok tt, s').
Proof.
  destruct (lookup key_num (ENTITY_MAP cfg)) as [entity_id|] eqn:Hk.
  - rewrite (handle_toggle_mapped _ _ _ _ _ _ Hk). eauto.
  - unfold handle_toggle. rewrite Hk. unfold print, log. eauto.
Qed.

(** What [read_serial] does with a non-empty line on an open port. *)
Lemma read_serial_line cfg ha env s line :
  ser s = Some true ->
  ser_poll env (tick s) = PollLine line ->
  line <> "" ->
  read_serial cfg ha env s
  = match handle_command cfg ha (PyStr.strip line) env (ticked s) with
    | (Raise e, s') =>
        if is_OSError_or_Serial e
        then (Raise ConnectionError,
              {| tick := tick s'; trace := trace s' ++ [EvPrintErr MsgSerialError];
                 ser := ser s'; running := running s';
                 ready_count := ready_count s'; retry_count := retry_count s' |})
        else (Raise e, s')
    | r => r
    end.
Proof.
  intros Hser Hpoll Hline. unfold read_serial, try_except.
  unfold bind at 1. unfold get_ser. rewrite Hser.
  unfold bind at 1. unfold ask. rewrite Hpoll.
  destruct line as [|c line']; [congruence|]. cbn [String.eqb].
  fold (ticked s).
  destruct (handle_command cfg ha (PyStr.strip (String c line')) env (ticked s))
    as [[[]|e|] s']; reflexivity.
Qed.

Lemma strip_press_line key_number :
  PyStr.strip (press_command key_number ++ String "010" "") = press_command key_number.
Proof.
  unfold PyStr.strip, press_command.
  change (PyStr.lstrip (("TOGGLE:" ++ PyStr.of_int key_number) ++ String "010" ""))
    with (("TOGGLE:" ++ PyStr.of_int key_number) ++ String "010" "").
  rewrite rstrip_app_space by reflexivity.
  apply rstrip_no_space. rewrite all_chars_app, of_int_no_space. reflexivity.
Qed.

(** X1. The line the firmware writes for a press of key [k],
    ["TOGGLE:<k>\n"], is read back by the bridge as a toggle of exactly that
    key: [read_serial] strips it, parses the key with [int] and runs
    [handle_toggle k].  This holds for the keypad's keys 0..15 and, more
    generally, for every [k] whose numeral stays within [int]'s limit of
    4300 digits. *)
Theorem press_reaches_toggle :
  forall cfg ha key_number data env s,
    0 <= key_number < 16
    \/ (PyStr.digit_count (PyStr.of_int key_number) <=? PyStr.int_max_str_digits)%N = true ->
    In data (send_command true (press_command key_number)) ->
    ser s = Some true ->
    ser_poll env (tick s) = PollLine data ->
    read_serial cfg ha env s = handle_toggle cfg ha key_number env (ticked s).
Proof.
  intros cfg ha key_number data env s Hkey [<-|[]] Hser Hpoll.
  assert (Hshort : (PyStr.digit_count (PyStr.of_int key_number)
                    <=? PyStr.int_max_str_digits)%N = true).
  { destruct Hkey as [Hkey|Hkey]; [now apply key_numeral_short | exact Hkey]. }
  rewrite (read_serial_line _ _ _ _ _ Hser Hpoll) by (unfold press_command; discriminate).
  rewrite strip_press_line. unfold press_command.
  rewrite handle_command_toggle, (split_no_sep _ _ (of_int_no_colon key_number)).
  cbn [hd]. rewrite (py_int_of_int _ Hshort).
  destruct (handle_toggle_returns cfg ha key_number env (ticked s)) as [s' ->].
  reflexivity.
Qed.

Lemma press_reaches_toggle_witness :
  read_serial demo_cfg demo_ha
    {| ser_open := fun _ => None;
       ser_poll := fun _ => PollLine ("TOGGLE:3" ++ String "010" "");
       ser_write := fun _ _ => None; ser_flush := fun _ => None;
       ser_close := fun _ => None;
       http_get := fun _ _ => HttpResponse 200 (state_doc "on");
       http_post := fun _ _ _ => HttpResponse 200 None;
       wait_interrupted := fun _ => false |}
    open_state
  = handle_toggle demo_cfg demo_ha 3
      {| ser_open := fun _ => None;
         ser_poll := fun _ => PollLine ("TOGGLE:3" ++ String "010" "");
         ser_write := fun _ _ => None; ser_flush := fun _ => None;
         ser_close := fun _ => None;
         http_get := fun _ _ => HttpResponse 200 (state_doc "on");
         http_post := fun _ _ _ => HttpResponse 200 None;
         wait_interrupted := fun _ => false |}
      (ticked open_state).
Proof.
  apply (press_reaches_toggle demo_cfg demo_ha 3 ("TOGGLE:3" ++ String "010" ""));
    [left; lia | left; reflexivity | reflexivity | reflexivity].
Defined.

Lemma split_app_sep sep a b :
  all_chars (fun c => negb (Ascii.eqb c sep)) a = true ->
  PyStr.split sep (a ++ String sep b) = a :: PyStr.split sep b.
Proof.
  induction a as [|c a IH]; cbn [all_chars append].
  - intros _. rewrite split_cons, Ascii.eqb_refl. reflexivity.
  - intros H. apply andb_true_iff in H as [Hc Ha].
    rewrite split_cons, (IH Ha). apply negb_true_iff in Hc. now rewrite Hc.
Qed.

(** X2. A [STATE:] line names its key unambiguously: whatever the state
    text, the second colon-separated field of [STATE:<k>:<state>] is the
    decimal numeral of [k] and reads back as [k]; so lines for different keys
    are different.  [int] itself returns [k] for that field whenever the
    numeral stays within its digit limit. *)
Theorem state_line_key :
  forall key_num state,
    (exists rest,
       PyStr.split ":" (state_line key_num state)
       = "STATE" :: PyStr.of_int key_num :: rest)
    /\ PyStr.to_int (nth 1 (PyStr.split ":" (state_line key_num state)) "") = Some key_num
    /\ (forall key_num' state',
          state_line key_num state = state_line key_num' state' -> key_num = key_num')
    /\ ((PyStr.digit_count (PyStr.of_int key_num) <=? PyStr.int_max_str_digits)%N = true ->
        PyStr.py_int (nth 1 (PyStr.split ":" (state_line key_num state)) "") = Some key_num).
Proof.
  assert (Hsplit : forall k st,
            PyStr.split ":" (state_line k st)
            = "STATE" :: PyStr.of_int k :: PyStr.split ":" (st ++ String "010" "")).
  { intros k st. unfold state_line.
    change ("STATE:" ++ PyStr.of_int k ++ ":" ++ st ++ String "010" "")
      with ("STATE" ++ String ":" (PyStr.of_int k ++ String ":" (st ++ String "010" ""))).
    rewrite split_app_sep by reflexivity.
    now rewrite (split_app_sep _ _ _ (of_int_no_colon k)). }
  assert (Hkey : forall k st,
            PyStr.to_int (nth 1 (PyStr.split ":" (state_line k st)) "") = Some k).
  { intros k st. rewrite Hsplit. cbn [nth]. apply to_int_of_int. }
  intros key_num state. split; [|split; [|split]].
  - rewrite Hsplit. eauto.
  - apply Hkey.
  - intros key_num' state' Heq.
    pose proof (Hkey key_num state) as H1. rewrite Heq, Hkey in H1. congruence.
  - intros Hshort. rewrite Hsplit. cbn [nth]. now apply py_int_of_int.
Qed.

Lemma state_line_key_witness :
  PyStr.py_int (nth 1 (PyStr.split ":" (state_line 3 "on")) "") = Some 3.
Proof.
  exact (proj2 (proj2 (proj2 (state_line_key 3 "on"))) eq_refl).
Defined.

(** ** The REST client, continued *)

(** X3. [toggle] never raises and makes exactly one request.  For an entity
    [<domain>.<name>] it posts to [/api/services/<domain>/turn_on] when the
    domain is [scene] or [script] and to [/api/services/<domain>/toggle]
    otherwise, and it returns [True] exactly when the answer has status
    200. *)
Theorem toggle_service :
  forall ha domain name env s,
    all_chars (fun c => negb (Ascii.eqb c ".")) domain = true ->
    let service := if String.eqb domain "scene" || String.eqb domain "script"
                   then "turn_on" else "toggle" in
    let u := url ha ++ "/api/services/" ++ domain ++ "/" ++ service in
    let entity_id := domain ++ "." ++ name in
    exists s',
      toggle ha entity_id env s = (Ok (call_ok (http_post env (tick s) u entity_id)), s')
      /\ requests (skipn (List.length (trace s)) (trace s')) = [EvPost u entity_id]
      /\ tick s' = S (tick s).
Proof.
  intros ha domain name env s Hdom service u entity_id.
  assert (Hhd : hd "" (PyStr.split "." entity_id) = domain).
  { unfold entity_id. change (domain ++ "." ++ name) with (domain ++ String "." name).
    now rewrite split_app_sep. }
  assert (Hu : toggle_url ha entity_id = u).
  { unfold toggle_url. rewrite Hhd. reflexivity. }
  rewrite toggle_run. cbv zeta. rewrite Hu.
  eexists. split; [reflexivity|]. split.
  - unfold after. cbn [trace]. rewrite skipn_app, Nat.sub_diag, skipn_all. cbn [app skipn].
    unfold toggle_events. rewrite Hu.
    destruct (http_post env (tick s) u entity_id); reflexivity.
  - unfold after. cbn [tick]. lia.
Qed.

Lemma toggle_service_witness :
  exists s',
    toggle demo_ha "scene.movie" calm_env open_state = (Ok true, s')
    /\ requests (trace s')
       = [EvPost "http://ha.local:8123/api/services/scene/turn_on" "scene.movie"].
Proof.
  destruct (toggle_service demo_ha "scene" "movie" calm_env open_state eq_refl)
    as (s' & Hrun & Hreq & _).
  exists s'. split; [exact Hrun | exact Hreq].
Defined.

Lemma dict_get_last key fields v :
  dict_get key (fields ++ [(key, v)]) = v.
Proof.
  induction fields as [|[k w] rest IH]; cbn [app dict_get existsb fst].
  - now rewrite String.eqb_refl.
  - replace (existsb (fun kv => String.eqb (fst kv) key) (rest ++ [(key, v)])) with true.
    + exact IH.
    + symmetry. rewrite existsb_app. cbn [existsb fst].
      now rewrite String.eqb_refl, orb_true_r.
Qed.

(** X4. [is_on] answers [True] only for a status-200 reply whose body is a
    JSON object in which the (last) ["state"] member is exactly the string
    ["on"]; any other state text, a missing member, another status, a body
    that is no object or a transport error all give [False]. *)
Theorem is_on_exactly_on :
  forall ha entity_id env s,
    let r := http_get env (tick s) (state_url ha entity_id) in
    (exists b s', is_on ha entity_id env s = (Ok b, s')
                  /\ (b = true <->
                      exists fields,
                        r = HttpResponse 200 (Some (JObj fields))
                        /\ dict_get "state" fields = JStr "on"))
    /\ (forall fields text,
          r = HttpResponse 200 (Some (JObj (fields ++ [("state", JStr text)]))) ->
          fst (is_on ha entity_id env s) = Ok (String.eqb text "on")).
Proof.
  intros ha entity_id env s r. rewrite is_on_run. cbv zeta. fold r. split.
  - eexists _, _. split; [reflexivity|]. split.
    + intros Hon. destruct r as [e|c [[fields|]|]]; cbn in Hon; try discriminate.
      destruct (c =? 200) eqn:Hc; cbn in Hon; [|discriminate].
      apply Z.eqb_eq in Hc. subst c. exists fields. split; [reflexivity|].
      destruct (dict_get "state" fields) as [|text|]; cbn in Hon; try discriminate.
      apply String.eqb_eq in Hon. now subst text.
    + intros (fields & -> & Hstate). cbn [get_state_value Z.eqb Pos.eqb].
      now rewrite Hstate.
  - intros fields text ->. cbn [fst get_state_value Z.eqb Pos.eqb].
    now rewrite dict_get_last.
Qed.

Lemma is_on_exactly_on_witness :
  fst (is_on demo_ha "light.desk"
         {| ser_open := fun _ => None; ser_poll := fun _ => PollNothing;
            ser_write := fun _ _ => None; ser_flush := fun _ => None;
            ser_close := fun _ => None;
            http_get := fun _ _ =>
              HttpResponse 200 (Some (JObj ([("entity_id", JStr "light.desk")]
                                            ++ [("state", JStr "unavailable")])));
            http_post := fun _ _ _ => HttpResponse 200 None;
            wait_interrupted := fun _ => false |} open_state)
  = Ok false.
Proof.
  exact (proj2 (is_on_exactly_on demo_ha "light.desk"
         {| ser_open := fun _ => None; ser_poll := fun _ => PollNothing;
            ser_write := fun _ _ => None; ser_flush := fun _ => None;
            ser_close := fun _ => None;
            http_get := fun _ _ =>
              HttpResponse 200 (Some (JObj ([("entity_id", JStr "light.desk")]
                                            ++ [("state", JStr "unavailable")])));
            http_post := fun _ _ _ => HttpResponse 200 None;
            wait_interrupted := fun _ => false |} open_state)
           [("entity_id", JStr "light.desk")] "unavailable" eq_refl).
Defined.

Lemma rstrip_char_app_sep ch u n :
  PyStr.rstrip_char ch (u ++ string_of_list_ascii (repeat ch n)) = PyStr.rstrip_char ch u.
Proof.
  induction u as [|c u IH]; cbn [append PyStr.rstrip_char].
  - induction n as [|n IHn]; cbn [repeat string_of_list_ascii PyStr.rstrip_char];
      [reflexivity|]. now rewrite IHn, Ascii.eqb_refl.
  - now rewrite IH.
Qed.

Lemma rstrip_char_idem ch u :
  PyStr.rstrip_char ch (PyStr.rstrip_char ch u) = PyStr.rstrip_char ch u.
Proof.
  induction u as [|c u IH]; cbn [PyStr.rstrip_char]; [reflexivity|].
  destruct (PyStr.rstrip_char ch u) as [|c' r] eqn:E.
  - destruct (Ascii.eqb c ch) eqn:Hc; [reflexivity|].
    cbn [PyStr.rstrip_char]. now rewrite Hc.
  - cbn [PyStr.rstrip_char] in *. rewrite IH. reflexivity.
Qed.

Lemma rstrip_char_last ch u r c :
  PyStr.rstrip_char ch u = r ++ String c "" -> c <> ch.
Proof.
  revert r. induction u as [|d u IH]; intros r; cbn [PyStr.rstrip_char].
  - destruct r; discriminate.
  - destruct (PyStr.rstrip_char ch u) as [|c' r'] eqn:E.
    + destruct (Ascii.eqb d ch) eqn:Hd; [destruct r; discriminate|].
      destruct r as [|x r]; cbn [append]; intros H.
      * assert (d = c) by congruence. subst. now apply Ascii.eqb_neq.
      * assert (Hr : "" = r ++ String c "") by congruence. destruct r; discriminate Hr.
    + destruct r as [|x r]; cbn [append]; intros H.
      * discriminate H.
      * apply (IH r). congruence.
Qed.

(** X5. The client's base URL is the configured one without its trailing
    slashes: any number of slashes appended to the configured URL gives the
    same client (so the same request URLs), normalising is idempotent, and the
    base URL never ends in a slash. *)
Theorem base_url_normalised :
  forall u t,
    (forall n, HomeAssistant_init (u ++ string_of_list_ascii (repeat "/"%char n)) t
               = HomeAssistant_init u t)
    /\ HomeAssistant_init (url (HomeAssistant_init u t)) t = HomeAssistant_init u t
    /\ (forall r, url (HomeAssistant_init u t) <> r ++ "/").
Proof.
  intros u t. unfold HomeAssistant_init. cbn [url]. split; [|split].
  - intros n. now rewrite rstrip_char_app_sep.
  - now rewrite rstrip_char_idem.
  - intros r H. now apply rstrip_char_last in H.
Qed.

(** ** The reconciliation pass, continued *)

Lemma refresh_items_run ha items env s :
  refresh_items ha items env s = (Ok tt, refresh_all ha items env s).
Proof.
  revert s. induction items as [|[k e] rest IH]; intros s; [reflexivity|].
  rewrite refresh_items_cons. apply IH.
Qed.

Lemma refreshed_fields ha key_num entity_id env s :
  ser (refreshed ha key_num entity_id env s) = ser s
  /\ running (refreshed ha key_num entity_id env s) = running s
  /\ ready_count (refreshed ha key_num entity_id env s) = ready_count s
  /\ retry_count (refreshed ha key_num entity_id env s) = retry_count s.
Proof. repeat split. Qed.

Lemma refreshed_summary ha key_num entity_id env s :
  exists evs,
    trace (refreshed ha key_num entity_id env s) = (trace s ++ evs)%list
    /\ requests evs = [EvGet (state_url ha entity_id)]
    /\ writes evs
       = (let line := state_line key_num
                        (on_off (eq_on (get_state_value
                                          (http_get env (tick s) (state_url ha entity_id))))) in
          if port_accepts env (ser s) (S (tick s)) line then [line] else []).
Proof.
  destruct (refreshed_trace ha key_num entity_id env s)
    as (noise & flushed & Htr & Hnoise & Hw & Hq & _).
  cbv zeta in *. eexists. split; [exact Htr|]. split.
  - cbn [requests]. rewrite !requests_app, Hq. cbn [requests app].
    destruct Hnoise as [-> | ->]; reflexivity.
  - cbn [writes]. rewrite !writes_app, Hw. cbn [writes]. rewrite app_nil_r.
    destruct Hnoise as [-> | ->]; reflexivity.
Qed.

Lemma refresh_all_summary ha items env s :
  exists evs,
    trace (refresh_all ha items env s) = (trace s ++ evs)%list
    /\ requests evs = map (fun kv => EvGet (state_url ha (snd kv))) items
    /\ (List.length (writes evs) <= List.length items)%nat
    /\ ser (refresh_all ha items env s) = ser s
    /\ running (refresh_all ha items env s) = running s
    /\ ready_count (refresh_all ha items env s) = ready_count s
    /\ retry_count (refresh_all ha items env s) = retry_count s.
Proof.
  revert s. induction items as [|[k e] rest IH]; intros s.
  - exists []. cbn [refresh_all]. rewrite app_nil_r. repeat split. cbn. lia.
  - destruct (refreshed_summary ha k e env s) as (evs1 & Htr1 & Hq1 & Hw1).
    destruct (IH (refreshed ha k e env s))
      as (evs2 & Htr2 & Hq2 & Hlen & Hser & Hrunning & Hready & Hretry).
    cbn [refresh_all].
    exists (evs1 ++ evs2)%list.
    split; [now rewrite Htr2, Htr1, app_assoc|].
    split; [rewrite requests_app, Hq1, Hq2; reflexivity|].
    split.
    + rewrite writes_app, length_app, Hw1. cbv zeta.
      destruct (port_accepts _ _ _ _); cbn [List.length]; lia.
    + rewrite Hser, Hrunning, Hready, Hretry. repeat split.
Qed.

(** X6. The reconciliation pass never raises and never gives up: it makes
    exactly one state query per mapped key, in the order of the map, writes at
    most one line per key, and leaves the session's fields as they were. *)
Theorem refresh_pass_total :
  forall cfg ha env s,
    exists s' evs,
      refresh_states cfg ha env s = (Ok tt, s')
      /\ trace s' = (trace s ++ evs)%list
      /\ requests evs = map (fun kv => EvGet (state_url ha (snd kv))) (ENTITY_MAP cfg)
      /\ (List.length (writes evs) <= List.length (ENTITY_MAP cfg))%nat
      /\ ser s' = ser s /\ running s' = running s
      /\ ready_count s' = ready_count s /\ retry_count s' = retry_count s.
Proof.
  intros cfg ha env s. unfold refresh_states. rewrite refresh_items_run.
  destruct (refresh_all_summary ha (ENTITY_MAP cfg) env s) as (evs & H).
  exists (refresh_all ha (ENTITY_MAP cfg) env s), evs. split; [reflexivity | exact H].
Qed.

Lemma refreshed_tick_accepting ha key_num entity_id env s :
  ser s = Some true ->
  (forall t data, ser_write env t data = None) ->
  tick (refreshed ha key_num entity_id env s) = (tick s + 3)%nat.
Proof.
  intros Hser Hwrite. unfold refreshed, send_effect.
  cbn [after ser tick]. rewrite Hser, Hwrite.
  destruct (ser_flush env _); cbn [fst after tick]; lia.
Qed.

(** X7. On an open port that accepts every write, the reconciliation pass
    sends exactly one [STATE:] line per mapped key, in the order of the map,
    each saying "on" exactly when that key's query answered "on". *)
Theorem refresh_pass_lines :
  forall cfg ha env s,
    ser s = Some true ->
    (forall t data, ser_write env t data = None) ->
    exists s' evs,
      refresh_states cfg ha env s = (Ok tt, s')
      /\ trace s' = (trace s ++ evs)%list
      /\ writes evs = expected_lines ha env (tick s) (ENTITY_MAP cfg).
Proof.
  intros cfg ha env s Hser Hwrite. unfold refresh_states. rewrite refresh_items_run.
  generalize (ENTITY_MAP cfg) as items. intros items. revert s Hser.
  induction items as [|[k e] rest IH]; intros s Hser.
  - exists s, []. cbn [refresh_all]. now rewrite app_nil_r.
  - destruct (refreshed_summary ha k e env s) as (evs1 & Htr1 & _ & Hw1).
    cbv zeta in Hw1. unfold port_accepts in Hw1. rewrite Hser, Hwrite in Hw1.
    destruct (IH (refreshed ha k e env s)) as (s' & evs2 & Hrun & Htr2 & Hw2);
      [exact Hser|].
    injection Hrun as Hs'. cbn [refresh_all]. rewrite Hs'.
    exists s', (evs1 ++ evs2)%list. split; [reflexivity|].
    split; [now rewrite Htr2, Htr1, app_assoc|].
    rewrite writes_app, Hw1, Hw2.
    rewrite (refreshed_tick_accepting _ _ _ _ _ Hser Hwrite). reflexivity.
Qed.

Lemma refresh_pass_lines_witness :
  exists s' evs,
    refresh_states demo_cfg demo_ha calm_env open_state = (Ok tt, s')
    /\ trace s' = evs
    /\ writes evs = ["STATE:3:on" ++ String "010" ""; "STATE:5:on" ++ String "010" ""].
Proof.
  destruct (refresh_pass_lines demo_cfg demo_ha calm_env open_state eq_refl
              (fun _ _ => eq_refl))
    as (s' & evs & Hrun & Htr & Hw).
  exists s', evs. auto.
Defined.

(** ** The dispatcher, continued *)

(** X8. The first [READY] of a session starts the reconciliation pass: the
    counter goes to one, nothing is raised, and one state query per mapped
    key follows, in the order of the map. *)
Theorem first_ready_syncs :
  forall cfg ha env s,
    ready_count s <= 0 ->
    exists s' evs,
      handle_command cfg ha "READY" env s = (Ok tt, s')
      /\ ready_count s' = ready_count s + 1
      /\ trace s' = (trace s ++ EvPrint MsgReadySync :: evs)%list
      /\ requests evs = map (fun kv => EvGet (state_url ha (snd kv))) (ENTITY_MAP cfg)
      /\ ser s' = ser s /\ running s' = running s.
Proof.
  intros cfg ha env s Hcount. rewrite handle_command_ready.
  replace (1 <? ready_count s + 1) with false by (symmetry; apply Z.ltb_ge; lia).
  unfold refresh_states. rewrite refresh_items_run.
  match goal with |- context [refresh_all ha _ env ?s0] =>
    destruct (refresh_all_summary ha (ENTITY_MAP cfg) env s0)
      as (evs & Htr & Hq & _ & Hser & Hrunning & Hready & _)
  end.
  eexists _, evs. split; [reflexivity|].
  rewrite Hready, Htr, Hser, Hrunning. cbn [ready_count trace ser running].
  rewrite <- app_assoc. repeat split. exact Hq.
Qed.

Lemma first_ready_syncs_witness :
  exists s' evs,
    handle_command demo_cfg demo_ha "READY" calm_env open_state = (Ok tt, s')
    /\ ready_count s' = 1
    /\ requests evs
       = [EvGet "http://ha.local:8123/api/states/switch.living_room_string_lights";
          EvGet "http://ha.local:8123/api/states/scene.movie"].
Proof.
  destruct (first_ready_syncs demo_cfg demo_ha calm_env open_state)
    as (s' & evs & Hrun & Hcount & _ & Hq & _).
  { simpl. lia. }
  exists s', evs. auto.
Defined.

Lemma startswith_prefix p s :
  PyStr.startswith p s = true -> exists rest, s = p ++ rest.
Proof.
  revert s. induction p as [|a p IH]; intros s; cbn [PyStr.startswith].
  - intros _. now exists s.
  - destruct s as [|b s]; [discriminate|].
    intros H. apply andb_true_iff in H as [Hab Hp].
    apply Ascii.eqb_eq in Hab. subst b.
    destruct (IH _ Hp) as [rest ->]. now exists rest.
Qed.

Lemma handle_command_other cfg ha command :
  String.eqb command "READY" = false ->
  PyStr.startswith "TOGGLE:" command = false ->
  handle_command cfg ha command
  = if String.eqb command "HEARTBEAT"
    then (if QUIET_MODE cfg then ret tt else print MsgHeartbeat)
    else if PyStr.startswith "DEBUG:" command || PyStr.startswith "ERROR:" command
         then print (MsgKeybow command) else ret tt.
Proof. intros Hr Ht. unfold handle_command. now rewrite Hr, Ht. Qed.

Lemma handle_command_raises cfg ha command env s e s' :
  handle_command cfg ha command env s = (Raise e, s') ->
  (e = RestartRequested /\ command = "READY" /\ 1 <= ready_count s)
  \/ (e = ValueError /\ PyStr.startswith "TOGGLE:" command = true /\ s' = s).
Proof.
  intros H.
  destruct (PyStr.startswith "TOGGLE:" command) eqn:Ht.
  - right. destruct (startswith_prefix _ _ Ht) as [rest ->].
    rewrite handle_command_toggle in H.
    destruct (PyStr.py_int _) as [k|].
    + destruct (handle_toggle_returns cfg ha k env s) as [s0 E]. congruence.
    + injection H as <- <-. auto.
  - destruct (String.eqb command "READY") eqn:Hr.
    + left. apply String.eqb_eq in Hr. subst command.
      rewrite handle_command_ready in H.
      destruct (1 <? ready_count s + 1) eqn:Hc.
      * injection H as <- _. apply Z.ltb_lt in Hc. repeat split; lia.
      * unfold refresh_states in H. rewrite refresh_items_run in H. discriminate H.
    + rewrite (handle_command_other _ _ _ Hr Ht) in H.
      destruct (String.eqb command "HEARTBEAT");
        [destruct (QUIET_MODE cfg) | destruct (_ || _)]; discriminate H.
Qed.

Lemma handle_command_no_fuel cfg ha command env s s' :
  handle_command cfg ha command env s <> (Fuel, s').
Proof.
  intros H.
  destruct (PyStr.startswith "TOGGLE:" command) eqn:Ht.
  - destruct (startswith_prefix _ _ Ht) as [rest ->].
    rewrite handle_command_toggle in H.
    destruct (PyStr.py_int _) as [k|]; [|discriminate H].
    destruct (handle_toggle_returns cfg ha k env s) as [s0 E]. congruence.
  - destruct (String.eqb command "READY") eqn:Hr.
    + apply String.eqb_eq in Hr. subst command.
      rewrite handle_command_ready in H.
      destruct (1 <? ready_count s + 1); [discriminate H|].
      unfold refresh_states in H. rewrite refresh_items_run in H. discriminate H.
    + rewrite (handle_command_other _ _ _ Hr Ht) in H.
      destruct (String.eqb command "HEARTBEAT");
        [destruct (QUIET_MODE cfg) | destruct (_ || _)]; discriminate H.
Qed.

(** X9. The dispatcher raises in two cases only: [RestartRequested] for a
    [READY] that is not the first of the session, and [ValueError] for a
    [TOGGLE:] line whose key field [int] rejects, as no decimal literal or as
    one of more than 4300 digits (the store is then unchanged).  In particular the index into [command.split(":")] is always
    in range, and no remote failure ever surfaces as an exception. *)
Theorem dispatcher_exceptions :
  forall cfg ha command env s e s',
    handle_command cfg ha command env s = (Raise e, s') ->
    (e = RestartRequested /\ command = "READY" /\ 1 <= ready_count s)
    \/ (e = ValueError /\ s' = s
        /\ exists rest, command = "TOGGLE:" ++ rest
                        /\ PyStr.py_int (hd "" (PyStr.split ":" rest)) = None).
Proof.
  intros cfg ha command env s e s' H.
  destruct (handle_command_raises _ _ _ _ _ _ _ H) as [Hreset | (-> & Ht & ->)];
    [now left | right].
  repeat split. destruct (startswith_prefix _ _ Ht) as [rest ->].
  exists rest. split; [reflexivity|].
  rewrite handle_command_toggle in H.
  destruct (PyStr.py_int _) as [k|]; [|reflexivity].
  destruct (handle_toggle_returns cfg ha k env s) as [s0 E]. congruence.
Qed.

Lemma dispatcher_exceptions_witness :
  exists rest, "TOGGLE:x" = "TOGGLE:" ++ rest
               /\ PyStr.py_int (hd "" (PyStr.split ":" rest)) = None.
Proof.
  destruct (dispatcher_exceptions demo_cfg demo_ha "TOGGLE:x" calm_env open_state
              ValueError open_state eq_refl)
    as [(H & _) | (_ & _ & Hrest)]; [discriminate H | exact Hrest].
Defined.

(** ** Reading the serial port *)

Lemma read_serial_guard cfg ha env s line :
  ser s = Some true ->
  ser_poll env (tick s) = PollLine line ->
  line <> "" ->
  read_serial cfg ha env s
  = guard_serial (handle_command cfg ha (PyStr.strip line)) env (ticked s).
Proof.
  intros Hser Hpoll Hline. rewrite (read_serial_line _ _ _ _ _ Hser Hpoll Hline).
  unfold guard_serial, try_except.
  destruct (handle_command _ _ _ _ _) as [[[]|e|] s']; reflexivity.
Qed.

Lemma strip_padded w1 cmd w2 :
  all_chars PyStr.isspace w1 = true ->
  all_chars PyStr.isspace w2 = true ->
  PyStr.strip (w1 ++ cmd ++ w2) = PyStr.strip cmd.
Proof.
  intros H1 H2. unfold PyStr.strip. rewrite (lstrip_app_space _ _ H1).
  destruct (PyStr.lstrip cmd) as [|c r] eqn:E.
  - apply lstrip_all_space in E.
    assert (Hall : all_chars PyStr.isspace (cmd ++ w2) = true)
      by (now rewrite all_chars_app, E, H2).
    clear E H1. induction (cmd ++ w2) as [|c x IH]; [reflexivity|].
    cbn [all_chars] in Hall. apply andb_true_iff in Hall as [Hc Hx].
    cbn [PyStr.lstrip]. rewrite Hc. now apply IH.
  - rewrite lstrip_app_head by (rewrite E; discriminate).
    rewrite E. now apply rstrip_app_space.
Qed.

(** X10. Whitespace around a command (carriage return, line feed, blanks)
    is removed before dispatch: a line made of the command between two runs
    of whitespace is handled exactly as the bare command. *)
Theorem padded_line_dispatch :
  forall cfg ha env s w1 cmd w2,
    ser s = Some true ->
    ser_poll env (tick s) = PollLine (w1 ++ cmd ++ w2) ->
    all_chars PyStr.isspace w1 = true ->
    all_chars PyStr.isspace w2 = true ->
    cmd <> "" -> PyStr.strip cmd = cmd ->
    read_serial cfg ha env s = guard_serial (handle_command cfg ha cmd) env (ticked s).
Proof.
  intros cfg ha env s w1 cmd w2 Hser Hpoll H1 H2 Hne Hstrip.
  rewrite (read_serial_guard _ _ _ _ _ Hser Hpoll).
  - now rewrite strip_padded, Hstrip.
  - intros Hempty. apply (f_equal PyStr.strip) in Hempty.
    rewrite strip_padded, Hstrip in Hempty by assumption. now apply Hne.
Qed.

Lemma padded_line_dispatch_witness :
  read_serial demo_cfg demo_ha ready_env synced_state
  = guard_serial (handle_command demo_cfg demo_ha "READY") ready_env (ticked synced_state).
Proof.
  apply (padded_line_dispatch demo_cfg demo_ha ready_env synced_state
           "" "READY" (String "013" (String "010" "")));
    try reflexivity; discriminate.
Defined.

(** X11. A line that is empty, blank or, once stripped, none of the
    commands the dispatcher knows is consumed and has no other effect: nothing
    is printed, requested or written, nothing is raised and the session's
    fields stay as they are. *)
Theorem unknown_line_ignored :
  forall cfg ha env s line,
    ser s = Some true ->
    ser_poll env (tick s) = PollLine line ->
    recognised (PyStr.strip line) = false ->
    read_serial cfg ha env s = (Ok tt, ticked s).
Proof.
  intros cfg ha env s line Hser Hpoll Hunknown.
  unfold recognised in Hunknown.
  repeat (apply orb_false_iff in Hunknown as [Hunknown ?]).
  destruct (string_dec line "") as [-> | Hline].
  - unfold read_serial, try_except. run_m. rewrite Hser. run_m. rewrite Hpoll.
    reflexivity.
  - rewrite (read_serial_guard _ _ _ _ _ Hser Hpoll Hline).
    unfold guard_serial, try_except.
    rewrite handle_command_other by assumption.
    replace (String.eqb (PyStr.strip line) "HEARTBEAT") with false by congruence.
    replace (PyStr.startswith "DEBUG:" (PyStr.strip line)) with false by congruence.
    replace (PyStr.startswith "ERROR:" (PyStr.strip line)) with false by congruence.
    reflexivity.
Qed.

Lemma unknown_line_ignored_witness :
  read_serial demo_cfg demo_ha
    {| ser_open := fun _ => None;
       ser_poll := fun _ => PollLine ("garbage" ++ String "013" "");
       ser_write := fun _ _ => None; ser_flush := fun _ => None;
       ser_close := fun _ => None;
       http_get := fun _ _ => HttpResponse 200 (state_doc "on");
       http_post := fun _ _ _ => HttpResponse 200 None;
       wait_interrupted := fun _ => false |}
    open_state
  = (Ok tt, ticked open_state).
Proof.
  apply (unknown_line_ignored demo_cfg demo_ha _ open_state ("garbage" ++ String "013" ""));
    reflexivity.
Defined.

Lemma read_serial_poll_raises cfg ha env s e :
  ser s = Some true ->
  ser_poll env (tick s) = PollRaises e ->
  read_serial cfg ha env s
  = if is_OSError_or_Serial e
    then (Raise ConnectionError,
          {| tick := S (tick s);
             trace := trace s ++ [EvPrintErr MsgSerialError];
             ser := ser s; running := running s;
             ready_count := ready_count s;
             retry_count := retry_count s |})
    else (Raise e, ticked s).
Proof.
  intros Hser Hpoll. unfold read_serial, try_except. run_m.
  rewrite Hser. run_m. rewrite Hpoll.
  destruct (is_OSError_or_Serial e); unfold ticked; run_m; rewrite ?Hser; reflexivity.
Qed.

(** X12. [read_serial] does nothing when there is no open port, and a
    transport error of the port ([OSError], [SerialException]) never leaves it
    as such: it is printed and replaced by [ConnectionError], while any other
    exception of the poll passes through unchanged. *)
Theorem read_serial_transport_errors :
  forall cfg ha env s,
    (ser s <> Some true -> read_serial cfg ha env s = (Ok tt, s))
    /\ (ser s = Some true ->
        forall e, ser_poll env (tick s) = PollRaises e ->
                  read_serial cfg ha env s
                  = if is_OSError_or_Serial e
                    then (Raise ConnectionError,
                          {| tick := S (tick s);
                             trace := trace s ++ [EvPrintErr MsgSerialError];
                             ser := ser s; running := running s;
                             ready_count := ready_count s;
                             retry_count := retry_count s |})
                    else (Raise e, ticked s))
    /\ (forall e s', read_serial cfg ha env s = (Raise e, s') ->
                     e <> OSError /\ e <> SerialException).
Proof.
  intros cfg ha env s. split; [|split].
  - intros Hser. unfold read_serial. run_m.
    destruct (ser s) as [[|]|]; try reflexivity. congruence.
  - intros Hser e Hpoll. now apply read_serial_poll_raises.
  - intros e s' H. unfold read_serial in H.
    unfold bind at 1 in H. unfold get_ser in H.
    destruct (ser s) as [[|]|] eqn:Hser; try discriminate H.
    unfold try_except in H. unfold bind at 1 in H. unfold ask in H.
    destruct (ser_poll env (tick s)) as [|line|e0]; try discriminate H.
    + destruct (String.eqb line ""); [discriminate H|].
      destruct (handle_command _ _ _ _ _) as [[[]|e1|] s1] eqn:Hcmd; try discriminate H.
      destruct (handle_command_raises _ _ _ _ _ _ _ Hcmd) as [(-> & _) | (-> & _)];
        cbn [is_OSError_or_Serial] in H; injection H as <- _; split; discriminate.
    + unfold raise in H. destruct (is_OSError_or_Serial e0) eqn:Hclass.
      * unfold bind, print_err, log, raise in H. injection H as <- _. split; discriminate.
      * injection H as <- _. split; intros ->; discriminate Hclass.
Qed.

Lemma read_serial_transport_errors_witness :
  read_serial demo_cfg demo_ha calm_env init_state = (Ok tt, init_state).
Proof.
  apply (proj1 (read_serial_transport_errors demo_cfg demo_ha calm_env init_state)).
  discriminate.
Defined.

(** ** What a session keeps and how it ends *)

Section Preserved.
Context {X : Type} (proj : State -> X).
Hypothesis proj_log : forall e, preserves proj (log e).
Hypothesis proj_ask : forall A (f : Env -> nat -> A), preserves proj (ask f).
Hypothesis proj_ready : forall n, preserves proj (set_ready_count n).

Lemma preserves_bind A B (m : M A) (k : A -> M B) :
  preserves proj m -> (forall a, preserves proj (k a)) -> preserves proj (bind m k).
Proof.
  intros Hm Hk env s. unfold bind. specialize (Hm env s).
  destruct (m env s) as [[a|e|] s1]; cbn [snd] in *; [|assumption..].
  now rewrite Hk.
Qed.

Lemma preserves_try_except A (m : M A) caught h :
  preserves proj m -> (forall e, preserves proj (h e)) ->
  preserves proj (try_except m caught h).
Proof.
  intros Hm Hh env s. unfold try_except. specialize (Hm env s).
  destruct (m env s) as [[a|e|] s1]; cbn [snd] in *; try assumption.
  destruct (caught e); cbn [snd]; [|assumption]. now rewrite Hh.
Qed.

Lemma preserves_pure A (r : res A) : preserves proj (fun _ s => (r, s)).
Proof. intros env s. reflexivity. Qed.

Lemma preserves_get A (f : State -> A) : preserves proj (fun _ s => (Ok (f s), s)).
Proof. intros env s. reflexivity. Qed.

Ltac preserves :=
  repeat first
    [ solve [auto]
    | apply proj_log | apply proj_ask | apply proj_ready
    | apply preserves_pure
    | apply preserves_get
    | apply preserves_bind; [|intros ?]
    | apply preserves_try_except; [|intros ?]
    | match goal with
      | |- preserves _ (match ?x with _ => _ end) => destruct x
      | |- preserves _ (if ?x then _ else _) => destruct x
      end ].

Lemma preserves_is_on ha entity_id : preserves proj (is_on ha entity_id).
Proof. unfold is_on, get_state, print_err, ret. preserves. Qed.

Lemma preserves_toggle ha entity_id : preserves proj (toggle ha entity_id).
Proof. unfold toggle, call_service, print_err, ret. preserves. Qed.

Lemma preserves_send_state key_num state : preserves proj (send_state key_num state).
Proof. unfold send_state, get_ser, print_err, ret. preserves. Qed.

Lemma preserves_refresh_items ha items : preserves proj (refresh_items ha items).
Proof.
  pose proof preserves_is_on. pose proof preserves_send_state.
  induction items as [|[k e] rest IH]; cbn [refresh_items];
    unfold print, print_err, ret; preserves.
Qed.

Lemma preserves_handle_toggle cfg ha key_num : preserves proj (handle_toggle cfg ha key_num).
Proof.
  pose proof preserves_is_on. pose proof preserves_send_state. pose proof preserves_toggle.
  unfold handle_toggle, print, sleep. preserves.
Qed.

Lemma preserves_handle_command cfg ha command :
  preserves proj (handle_command cfg ha command).
Proof.
  pose proof preserves_refresh_items. pose proof preserves_handle_toggle.
  unfold handle_command, refresh_states, print, raise, ret, get_ready_count. preserves.
Qed.

Lemma preserves_read_serial cfg ha : preserves proj (read_serial cfg ha).
Proof.
  pose proof preserves_handle_command.
  unfold read_serial, print_err, raise, ret, get_ser. preserves.
Qed.

Lemma preserves_run_loop cfg ha fuel : preserves proj (run_loop cfg ha fuel).
Proof.
  pose proof preserves_read_serial.
  induction fuel as [|fuel IH]; cbn [run_loop]; unfold get_running, sleep, ret; preserves.
Qed.
End Preserved.

Lemma read_serial_keeps cfg ha env s :
  running (snd (read_serial cfg ha env s)) = running s
  /\ ser (snd (read_serial cfg ha env s)) = ser s.
Proof.
  split; apply preserves_read_serial; intros; intros ? ?; reflexivity.
Qed.

Lemma run_loop_keeps cfg ha fuel env s :
  running (snd (run_loop cfg ha fuel env s)) = running s
  /\ ser (snd (run_loop cfg ha fuel env s)) = ser s.
Proof.
  split; apply preserves_run_loop; intros; intros ? ?; reflexivity.
Qed.

Lemma run_loop_not_ok cfg ha fuel env s s' :
  running s = true -> run_loop cfg ha fuel env s <> (Ok tt, s').
Proof.
  revert s. induction fuel as [|fuel IH]; intros s Hr; [discriminate|].
  cbn [run_loop]. unfold bind at 1. unfold get_running. rewrite Hr.
  unfold bind at 1. destruct (read_serial_keeps cfg ha env s) as [H1 _].
  destruct (read_serial cfg ha env s) as [[[]|e|] s1]; cbn [snd] in *; try discriminate.
  unfold bind at 1. unfold sleep, log. apply IH. cbn [running]. congruence.
Qed.

Lemma release_run env s : release env s = (Ok tt, released env s).
Proof.
  unfold release, released. run_m.
  destruct (ser s) as [[|]|] eqn:Hser; run_m; rewrite ?Hser; try reflexivity.
  destruct (ser_close env (tick s)); run_m; rewrite <- ?app_assoc, ?Hser; reflexivity.
Qed.

(** How the [try] statement of [run] ends, by how its loop ends. *)
Lemma run_guarded_run cfg ha fuel env s :
  run_guarded cfg ha fuel env s
  = match run_loop cfg ha fuel env s with
    | (Ok a, s1) => (Ok a, released env s1)
    | (Raise e, s1) =>
        (Raise e, released env {| tick := tick s1; trace := trace s1 ++ farewell e;
                                  ser := ser s1; running := running s1;
                                  ready_count := ready_count s1;
                                  retry_count := retry_count s1 |})
    | (Fuel, s1) => (Fuel, s1)
    end.
Proof.
  unfold run_guarded, try_finally, try_except.
  destruct (run_loop cfg ha fuel env s) as [[[]|e|] s1].
  - now rewrite release_run.
  - assert (Hh : forall m, (print m ;; @raise unit e) env s1
                    = (Raise e, {| tick := tick s1; trace := trace s1 ++ [EvPrint m];
                                   ser := ser s1; running := running s1;
                                   ready_count := ready_count s1;
                                   retry_count := retry_count s1 |}))
      by reflexivity.
    destruct e; cbn [is_Exception farewell];
      rewrite ?Hh; unfold bind, print_err, log, raise; rewrite release_run;
      rewrite ?app_nil_r; try reflexivity; destruct s1; reflexivity.
  - reflexivity.
Qed.

Lemma run_connected cfg ha fuel env s :
  ser_open env (tick s) = None ->
  run cfg ha fuel env s = run_guarded cfg ha fuel env (connected cfg s).
Proof.
  intros Hopen. unfold run, connect. run_m. rewrite Hopen. run_m.
  cbn [negb]. run_m. unfold connected. rewrite <- !app_assoc. reflexivity.
Qed.

Lemma run_not_connected cfg ha fuel env s :
  ser_open env (tick s) <> None ->
  run cfg ha fuel env s
  = (Raise ConnectionError,
     {| tick := S (tick s);
        trace := trace s ++ [EvPrint (MsgConnecting (SERIAL_PORT cfg)); EvPrintErr MsgConnectFailed];
        ser := ser s; running := running s;
        ready_count := ready_count s; retry_count := retry_count s |}).
Proof.
  intros Hopen. unfold run, connect. run_m.
  destruct (ser_open env (tick s)); [|congruence]. run_m.
  now rewrite <- app_assoc.
Qed.

(** X13. [run] never returns normally: it ends by an exception or not at
    all.  (The [break] that follows [bridge.run()] in [main] is never
    reached.) *)
Theorem run_never_returns :
  forall cfg ha fuel env s s', run cfg ha fuel env s <> (Ok tt, s').
Proof.
  intros cfg ha fuel env s s'.
  destruct (ser_open env (tick s)) eqn:Hopen.
  - rewrite run_not_connected by congruence. discriminate.
  - rewrite (run_connected _ _ _ _ _ Hopen), run_guarded_run.
    destruct (run_loop cfg ha fuel env (connected cfg s)) as [[[]|e|] s1] eqn:Hloop;
      try discriminate.
    exfalso. now apply (run_loop_not_ok cfg ha fuel env (connected cfg s) s1).
Qed.

(** X14. Once the port is open, however the loop of [run] ends, the
    [finally] block has run: the loop flag is off, and the port is closed
    unless closing it failed. *)
Theorem session_releases_port :
  forall cfg ha fuel env s e s',
    ser s = Some true ->
    run_guarded cfg ha fuel env s = (Raise e, s') ->
    running s' = false
    /\ (ser s' = Some false \/ (ser s' = Some true /\ exists t, ser_close env t <> None)).
Proof.
  intros cfg ha fuel env s e s' Hopen H.
  rewrite run_guarded_run in H.
  destruct (run_loop_keeps cfg ha fuel env s) as [_ Hser].
  destruct (run_loop cfg ha fuel env s) as [[[]|e1|] s1]; try discriminate H.
  cbn [snd] in Hser. injection H as _ <-.
  unfold released. cbn [ser tick]. rewrite Hser, Hopen.
  destruct (ser_close env (tick s1)) eqn:Hclose; cbn [running ser].
  - split; [reflexivity|]. right. rewrite ?Hser, ?Hopen. split; [reflexivity|].
    exists (tick s1). congruence.
  - split; [reflexivity|]. now left.
Qed.

Lemma session_releases_port_witness :
  exists s',
    run_guarded demo_cfg demo_ha 3 ready_env open_state = (Raise RestartRequested, s')
    /\ running s' = false.
Proof.
  eexists. split; [vm_compute; reflexivity|].
  apply (session_releases_port demo_cfg demo_ha 3%nat ready_env open_state RestartRequested);
    [reflexivity | vm_compute; reflexivity].
Defined.

(** ** The supervisor, continued *)

(** X15. How the supervisor answers a failed session (any [Exception] but
    the reset signal): the failure is counted; then the process exits with
    status 1 if a non-zero bound is configured and reached, stops normally if
    the operator interrupts the wait, and otherwise waits the retry delay and
    starts another session. *)
Theorem failed_session_handling :
  forall cfg ha polls env s e s1,
    (KeybowBridge_init ;; run cfg ha polls) env s = (Raise e, s1) ->
    is_failure e = true ->
    exists r s',
      attempt cfg ha polls env s = (r, s')
      /\ retry_count s' = retry_count s + 1
      /\ (max_retries_reached cfg (retry_count s + 1) = true ->
          r = Raise (SystemExit 1) /\ retry_waits (trace s') = retry_waits (trace s1))
      /\ (max_retries_reached cfg (retry_count s + 1) = false ->
          wait_interrupted env (tick s1) = true ->
          r = Ok Break /\ retry_waits (trace s') = retry_waits (trace s1))
      /\ (max_retries_reached cfg (retry_count s + 1) = false ->
          wait_interrupted env (tick s1) = false ->
          r = Ok Continue /\ retry_waits (trace s') = S (retry_waits (trace s1))).
Proof.
  intros cfg ha polls env s e s1 Hend Hfail.
  pose proof (keeps_session cfg ha polls env s) as Hkeep.
  rewrite Hend in Hkeep. cbn [snd] in Hkeep.
  rewrite attempt_classify, Hend. cbn [fst snd].
  rewrite (classify_failure_eq _ _ _ _ Hfail), Hkeep.
  destruct (max_retries_reached cfg (retry_count s + 1));
    [|destruct (wait_interrupted env (tick s1))];
    eexists _, _; (split; [reflexivity|]);
    cbn [after_abort after_retry_wait retry_count trace];
    rewrite ?retry_waits_app, ?Hkeep; cbn [retry_waits];
    repeat split; try discriminate; try lia.
Qed.

Lemma failed_session_handling_witness :
  exists r s',
    attempt demo_cfg demo_ha 2 garbled_env init_state = (r, s')
    /\ retry_count s' = 1.
Proof.
  destruct (failed_session_handling demo_cfg demo_ha 2%nat garbled_env init_state ValueError
              (snd ((KeybowBridge_init ;; run demo_cfg demo_ha 2) garbled_env init_state)))
    as (r & s' & Hrun & Hcount & _).
  - vm_compute. reflexivity.
  - reflexivity.
  - exists r, s'. auto.
Defined.

Lemma session_connected cfg ha fuel env s :
  ser_open env (tick s) = None ->
  (KeybowBridge_init ;; run cfg ha fuel) env s
  = run_guarded cfg ha fuel env (connected cfg (fresh s)).
Proof.
  intros Hopen. unfold bind at 1. unfold KeybowBridge_init. run_m.
  now rewrite run_connected by exact Hopen.
Qed.

(** The loop's first poll raises: the session ends with that exception, or
    with [ConnectionError] for a transport error, after releasing the
    port. *)
Lemma run_guarded_poll_raises cfg ha fuel env s e :
  running s = true -> ser s = Some true ->
  ser_poll env (tick s) = PollRaises e ->
  run_guarded cfg ha (S fuel) env s
  = if is_OSError_or_Serial e
    then (Raise ConnectionError,
          released env (logged (ticked s) [EvPrintErr MsgSerialError;
                                           EvPrintErr MsgMainLoopError]))
    else (Raise e, released env (logged (ticked s) (farewell e))).
Proof.
  intros Hrun Hser Hpoll. rewrite run_guarded_run. cbn [run_loop].
  unfold bind at 1. unfold get_running. rewrite Hrun. unfold bind at 1.
  rewrite (read_serial_poll_raises _ _ _ _ _ Hser Hpoll).
  destruct (is_OSError_or_Serial e).
  - unfold logged, ticked. cbn [farewell is_Exception tick trace ser running ready_count retry_count].
    now rewrite <- app_assoc.
  - reflexivity.
Qed.

(** X16. An operator interrupt ends the process normally.  If the interrupt
    arrives while the first session polls the port, the session releases the
    port and [main] returns with exit status 0, one session started and the
    retry counter untouched; the same holds, with the counter at 1, when it
    arrives during the wait that follows a first failed connection. *)
Theorem interrupt_stops_cleanly :
  forall cfg env polls sessions,
    validate_config cfg = [] ->
    (ser_open env 0 = None ->
     ser_poll env 1 = PollRaises KeyboardInterrupt ->
     exists s',
       main cfg (S polls) (S sessions) env init_state = (Ok tt, s')
       /\ exit_status (fst (main cfg (S polls) (S sessions) env init_state)) = Some 0
       /\ retry_count s' = 0 /\ running s' = false
       /\ sessions_started (trace s') = 1%nat
       /\ (ser_close env 2 = None -> ser s' = Some false))
    /\ (ser_open env 0 <> None ->
        max_retries_reached cfg 1 = false ->
        wait_interrupted env 1 = true ->
        exists s',
          main cfg polls (S sessions) env init_state = (Ok tt, s')
          /\ exit_status (fst (main cfg polls (S sessions) env init_state)) = Some 0
          /\ retry_count s' = 1
          /\ retry_waits (trace s') = 0%nat).
Proof.
  intros cfg env polls sessions Hvalid. split.
  - intros Hopen Hpoll.
    assert (Hmain : exists s',
              main cfg (S polls) (S sessions) env init_state = (Ok tt, s')
              /\ retry_count s' = 0 /\ running s' = false
              /\ sessions_started (trace s') = 1%nat
              /\ (ser_close env 2 = None -> ser s' = Some false)).
    { rewrite (main_valid _ _ _ _ Hvalid). cbn [retry_loop]. unfold bind at 1.
      rewrite attempt_classify, session_connected by exact Hopen.
      rewrite (run_guarded_poll_raises _ _ _ _ _ KeyboardInterrupt) by (try reflexivity; exact Hpoll).
      cbn [is_OSError_or_Serial fst snd classify farewell].
      unfold released. cbn [logged ticked connected fresh main_start ser tick].
      destruct (ser_close env 2) eqn:Hclose; run_m;
        eexists; (split; [reflexivity|]); cbn [retry_count running trace ser];
        repeat split; try discriminate;
        rewrite !sessions_started_app; reflexivity. }
    destruct Hmain as (s' & Hrun & H). exists s'. rewrite Hrun. cbn [fst exit_status].
    tauto.
  - intros Hopen Hmax Hwait.
    assert (Hmain : exists s',
              main cfg polls (S sessions) env init_state = (Ok tt, s')
              /\ retry_count s' = 1 /\ retry_waits (trace s') = 0%nat).
    { rewrite (main_valid _ _ _ _ Hvalid). cbn [retry_loop]. unfold bind at 1.
      rewrite attempt_connect_failed by exact Hopen.
      rewrite classify_failure_eq by reflexivity.
      cbn [after_failed_connect main_start retry_count tick Z.add]. rewrite Hmax, Hwait.
      eexists. split; [reflexivity|]. cbn [retry_count trace].
      split; [reflexivity|]. rewrite !retry_waits_app. reflexivity. }
    destruct Hmain as (s' & Hrun & H). exists s'. rewrite Hrun. cbn [fst exit_status].
    tauto.
Qed.

Lemma interrupt_stops_cleanly_witness :
  exists s',
    main demo_cfg 0 1
      {| ser_open := fun _ => Some IOTransport; ser_poll := fun _ => PollNothing;
         ser_write := fun _ _ => None; ser_flush := fun _ => None;
         ser_close := fun _ => None;
         http_get := fun _ _ => HttpResponse 500 None;
         http_post := fun _ _ _ => HttpResponse 500 None;
         wait_interrupted := fun _ => true |} init_state
    = (Ok tt, s')
    /\ retry_count s' = 1.
Proof.
  destruct (proj2 (interrupt_stops_cleanly demo_cfg
              {| ser_open := fun _ => Some IOTransport; ser_poll := fun _ => PollNothing;
                 ser_write := fun _ _ => None; ser_flush := fun _ => None;
                 ser_close := fun _ => None;
                 http_get := fun _ _ => HttpResponse 500 None;
                 http_post := fun _ _ _ => HttpResponse 500 None;
                 wait_interrupted := fun _ => true |} 0%nat 0%nat eq_refl)
              ltac:(discriminate) eq_refl eq_refl) as (s' & Hrun & _ & Hcount & _).
  exists s'. split; [exact Hrun | exact Hcount].
Defined.

(** X17. A transport error while polling ends the session as a connection
    failure: [run]'s loop raises [ConnectionError], which the supervisor
    counts as a failure, after the error was printed and the port
    released. *)
Theorem transport_error_ends_session :
  forall cfg ha fuel env s e,
    running s = true -> ser s = Some true ->
    ser_poll env (tick s) = PollRaises e ->
    is_OSError_or_Serial e = true ->
    exists s',
      run_guarded cfg ha (S fuel) env s = (Raise ConnectionError, s')
      /\ is_failure ConnectionError = true
      /\ running s' = false
      /\ ready_count s' = ready_count s
      /\ In (EvPrintErr MsgSerialError) (trace s')
      /\ (ser_close env (S (tick s)) = None -> ser s' = Some false)
      /\ writes (skipn (List.length (trace s)) (trace s')) = []
      /\ requests (skipn (List.length (trace s)) (trace s')) = [].
Proof.
  intros cfg ha fuel env s e Hrun Hser Hpoll Hclass.
  rewrite (run_guarded_poll_raises _ _ _ _ _ e Hrun Hser Hpoll), Hclass.
  eexists. split; [reflexivity|]. split; [reflexivity|].
  unfold released. cbn [logged ticked ser tick]. rewrite Hser.
  destruct (ser_close env (S (tick s))); cbn [running ready_count trace ser];
    (split; [reflexivity|]); (split; [reflexivity|]);
    unfold logged, ticked; cbn [trace]; rewrite <- ?app_assoc;
    (split; [apply in_or_app; right; now left|]);
    (split; [try discriminate; reflexivity|]);
    rewrite skipn_app, Nat.sub_diag, skipn_all; split; reflexivity.
Qed.

Lemma transport_error_ends_session_witness :
  exists s',
    run_guarded demo_cfg demo_ha 1
      {| ser_open := fun _ => None; ser_poll := fun _ => PollRaises SerialException;
         ser_write := fun _ _ => None; ser_flush := fun _ => None;
         ser_close := fun _ => None;
         http_get := fun _ _ => HttpResponse 200 (state_doc "on");
         http_post := fun _ _ _ => HttpResponse 200 None;
         wait_interrupted := fun _ => false |} open_state
    = (Raise ConnectionError, s')
    /\ running s' = false.
Proof.
  destruct (transport_error_ends_session demo_cfg demo_ha 0%nat
              {| ser_open := fun _ => None; ser_poll := fun _ => PollRaises SerialException;
                 ser_write := fun _ _ => None; ser_flush := fun _ => None;
                 ser_close := fun _ => None;
                 http_get := fun _ _ => HttpResponse 200 (state_doc "on");
                 http_post := fun _ _ _ => HttpResponse 200 None;
                 wait_interrupted := fun _ => false |} open_state SerialException
              eq_refl eq_refl eq_refl eq_refl) as (s' & Hrun & _ & Hstop & _).
  exists s'. split; [exact Hrun | exact Hstop].
Defined.

Lemma validate_config_ok cfg :
  validate_config cfg = [] <->
  HA_TOKEN cfg <> "" /\ HA_TOKEN cfg <> "YOUR_LONG_LIVED_ACCESS_TOKEN"
  /\ ENTITY_MAP cfg <> [] /\ config_loaded cfg = true.
Proof.
  unfold validate_config. split.
  - intros H. apply app_eq_nil in H as [H1 H2]. apply app_eq_nil in H2 as [H2 H3].
    destruct (String.eqb_spec (HA_TOKEN cfg) "") as [E1|E1]; [discriminate H1|].
    destruct (String.eqb_spec (HA_TOKEN cfg) "YOUR_LONG_LIVED_ACCESS_TOKEN") as [E2|E2];
      [discriminate H1|].
    destruct (ENTITY_MAP cfg); [discriminate H2|].
    destruct (config_loaded cfg); [|discriminate H3].
    repeat split; try assumption. discriminate.
  - intros (E1 & E2 & E3 & E4).
    apply String.eqb_neq in E1, E2. rewrite E1, E2, E4.
    destruct (ENTITY_MAP cfg); [congruence | reflexivity].
Qed.

(** X18. Configuration is checked before anything else happens.  The
    configuration is accepted exactly when the token is set and is not the
    placeholder, at least one key is mapped and the configuration file was
    loaded; otherwise [main] prints the errors and exits with status 1 without
    opening the port, making a request or starting a session. *)
Theorem invalid_config_exits :
  forall cfg polls sessions env,
    (validate_config cfg = [] <->
     HA_TOKEN cfg <> "" /\ HA_TOKEN cfg <> "YOUR_LONG_LIVED_ACCESS_TOKEN"
     /\ ENTITY_MAP cfg <> [] /\ config_loaded cfg = true)
    /\ (validate_config cfg <> [] ->
        main cfg polls sessions env init_state
        = (Raise (SystemExit 1),
           {| tick := 0;
              trace := [EvPrint MsgTitle; EvPrint (MsgConfigErrors (validate_config cfg))];
              ser := None; running := false; ready_count := 0; retry_count := 0 |})).
Proof.
  intros cfg polls sessions env. split; [apply validate_config_ok|].
  intros Hbad. unfold main.
  destruct (validate_config cfg) as [|err errs]; [congruence|]. reflexivity.
Qed.

Lemma invalid_config_exits_witness :
  exists errors s',
    main {| config_loaded := true; HA_URL := "http://ha.local:8123";
            HA_TOKEN := "YOUR_LONG_LIVED_ACCESS_TOKEN";
            SERIAL_PORT := "/dev/ttyACM0"; BAUD_RATE := 115200;
            ENTITY_MAP := [(3, "switch.living_room_string_lights")];
            MAX_RETRIES := None; QUIET_MODE := false |} 5 5 calm_env init_state
    = (Raise (SystemExit 1), s')
    /\ trace s' = [EvPrint MsgTitle; EvPrint (MsgConfigErrors errors)].
Proof.
  eexists _, _. split.
  - apply (proj2 (invalid_config_exits
                    {| config_loaded := true; HA_URL := "http://ha.local:8123";
                       HA_TOKEN := "YOUR_LONG_LIVED_ACCESS_TOKEN";
                       SERIAL_PORT := "/dev/ttyACM0"; BAUD_RATE := 115200;
                       ENTITY_MAP := [(3, "switch.living_room_string_lights")];
                       MAX_RETRIES := None; QUIET_MODE := false |} 5%nat 5%nat calm_env)).
    discriminate.
  - reflexivity.
Defined.

(** X19. A bound of [m >= 1] stops the supervisor at the [m]-th failure in
    a row: with a port that can never be opened, exactly [m] sessions are
    started, [m - 1] retry waits are made, and the process exits with status
    1 with the counter at [m]. *)
Theorem retry_bound_general :
  forall cfg env polls m,
    validate_config cfg = [] ->
    (forall t, ser_open env t <> None) ->
    (forall t, wait_interrupted env t = false) ->
    MAX_RETRIES cfg = Some (Z.of_nat (S m)) ->
    forall sessions, (S m <= sessions)%nat ->
      exists s',
        main cfg polls sessions env init_state = (Raise (SystemExit 1), s')
        /\ retry_count s' = Z.of_nat (S m)
        /\ sessions_started (trace s') = S m
        /\ retry_waits (trace s') = m.
Proof.
  intros cfg env polls m Hvalid Hopen Hwait Hmax sessions Hsessions.
  assert (Hreached : forall n, max_retries_reached cfg n = (Z.of_nat (S m) <=? n)).
  { intros n. unfold max_retries_reached. rewrite Hmax.
    replace (Z.of_nat (S m) =? 0) with false by (symmetry; apply Z.eqb_neq; lia).
    reflexivity. }
  assert (Hmain : main cfg polls sessions env init_state
                  = (Raise (SystemExit 1),
                     after_abort cfg
                       (after_failed_connect cfg (Nat.iter m (failed_round cfg) main_start)))).
  { rewrite (main_valid _ _ _ _ Hvalid).
    replace sessions with (m + S (sessions - S m))%nat by lia.
    rewrite (retry_loop_failing _ _ _ _ m Hopen Hwait).
    2:{ intros k Hk. rewrite Hreached. cbn [main_start retry_count].
        apply Z.leb_gt. lia. }
    cbn [retry_loop]. unfold bind at 1.
    rewrite attempt_connect_failed by apply Hopen.
    rewrite classify_failure_eq by reflexivity.
    rewrite Hreached.
    replace (retry_count (after_failed_connect cfg (Nat.iter m (failed_round cfg) main_start)))
      with (Z.of_nat m) by (cbn [after_failed_connect retry_count];
                            now rewrite failed_rounds_count).
    replace (Z.of_nat (S m) <=? Z.of_nat m + 1) with true by (symmetry; apply Z.leb_le; lia).
    reflexivity. }
  rewrite Hmain. eexists. split; [reflexivity|].
  destruct (failed_rounds_trace cfg m main_start) as [Hs Hw].
  cbn [after_abort after_failed_connect retry_count trace].
  rewrite failed_rounds_count, !sessions_started_app, !retry_waits_app, Hs, Hw.
  cbn [main_start retry_count trace sessions_started retry_waits]. repeat split; lia.
Qed.

Lemma retry_bound_general_witness :
  exists s',
    main {| config_loaded := true; HA_URL := "http://ha.local:8123"; HA_TOKEN := "secret";
            SERIAL_PORT := "/dev/ttyACM0"; BAUD_RATE := 115200;
            ENTITY_MAP := [(3, "switch.living_room_string_lights")];
            MAX_RETRIES := Some 1; QUIET_MODE := false |}
         4 2 unplugged_env init_state
    = (Raise (SystemExit 1), s')
    /\ sessions_started (trace s') = 1%nat.
Proof.
  destruct (retry_bound_general
              {| config_loaded := true; HA_URL := "http://ha.local:8123"; HA_TOKEN := "secret";
                 SERIAL_PORT := "/dev/ttyACM0"; BAUD_RATE := 115200;
                 ENTITY_MAP := [(3, "switch.living_room_string_lights")];
                 MAX_RETRIES := Some 1; QUIET_MODE := false |}
              unplugged_env 4%nat 0%nat eq_refl
              (fun _ H => ltac:(discriminate H)) (fun _ => eq_refl) eq_refl
              2%nat ltac:(lia))
    as (s' & Hrun & _ & Hstarted & _).
  exists s'. split; [exact Hrun | exact Hstarted].
Defined.

(** X20. A bound of zero is no bound, and a negative bound stops at the
    first failure: [MAX_RETRIES = 0] never makes the supervisor exit, while
    with a negative [MAX_RETRIES] every failure, from any non-negative count,
    hits the bound. *)
Theorem retry_bound_edge_values :
  forall cfg,
    (MAX_RETRIES cfg = Some 0 -> forall n, max_retries_reached cfg n = false)
    /\ (forall m, MAX_RETRIES cfg = Some m -> m < 0 ->
                  forall n, 0 <= n -> max_retries_reached cfg n = true)
    /\ (MAX_RETRIES cfg = Some 0 ->
        forall env polls n,
          validate_config cfg = [] ->
          (forall t, ser_open env t <> None) ->
          (forall t, wait_interrupted env t = false) ->
          exists s', main cfg polls n env init_state = (Fuel, s')
                     /\ retry_count s' = Z.of_nat n).
Proof.
  intros cfg. split; [|split].
  - intros Hmax n. unfold max_retries_reached. now rewrite Hmax.
  - intros m Hmax Hneg n Hn. unfold max_retries_reached. rewrite Hmax.
    apply andb_true_iff. split.
    + apply negb_true_iff, Z.eqb_neq. lia.
    + apply Z.leb_le. lia.
  - intros Hmax env polls n Hvalid Hopen Hwait.
    rewrite (main_valid _ _ _ _ Hvalid).
    pose proof (retry_loop_failing cfg (HomeAssistant_init (HA_URL cfg) (HA_TOKEN cfg))
                  polls env n Hopen Hwait 0%nat main_start) as Hloop.
    rewrite Nat.add_0_r in Hloop. rewrite Hloop.
    + eexists. split; [reflexivity|]. now rewrite failed_rounds_count.
    + intros k _. unfold max_retries_reached. now rewrite Hmax.
Qed.

Lemma retry_bound_edge_values_witness :
  max_retries_reached
    {| config_loaded := true; HA_URL := "http://ha.local:8123"; HA_TOKEN := "secret";
       SERIAL_PORT := "/dev/ttyACM0"; BAUD_RATE := 115200;
       ENTITY_MAP := [(3, "switch.living_room_string_lights")];
       MAX_RETRIES := Some 0; QUIET_MODE := false |} 1000 = false.
Proof.
  exact (proj1 (retry_bound_edge_values
                  {| config_loaded := true; HA_URL := "http://ha.local:8123"; HA_TOKEN := "secret";
                     SERIAL_PORT := "/dev/ttyACM0"; BAUD_RATE := 115200;
                     ENTITY_MAP := [(3, "switch.living_room_string_lights")];
                     MAX_RETRIES := Some 0; QUIET_MODE := false |}) eq_refl 1000).
Defined.

(** ** Configuration loading *)

Lemma lookup_dict_set k v d k' :
  lookup k' (dict_set k v d) = if k' =? k then Some v else lookup k' d.
Proof.
  induction d as [|[k0 v0] d IH]; cbn [dict_set lookup].
  - destruct (k' =? k); reflexivity.
  - destruct (Z.eqb_spec k k0) as [->|Hk]; cbn [lookup].
    + destruct (k' =? k0); reflexivity.
    + rewrite IH. destruct (Z.eqb_spec k' k0) as [->|Hk'].
      * replace (k0 =? k) with false by (symmetry; apply Z.eqb_neq; congruence).
        reflexivity.
      * reflexivity.
Qed.

Lemma dict_set_keys k v d :
  map fst (dict_set k v d)
  = if existsb (fun kv => k =? fst kv) d then map fst d else (map fst d ++ [k])%list.
Proof.
  induction d as [|[k0 v0] d IH]; cbn [dict_set existsb map fst app]; [reflexivity|].
  destruct (k =? k0); cbn [orb map fst]; [reflexivity|].
  rewrite IH. destruct (existsb _ d); reflexivity.
Qed.

Lemma dict_set_nodup k v d : NoDup (map fst d) -> NoDup (map fst (dict_set k v d)).
Proof.
  intros Hd. rewrite dict_set_keys.
  destruct (existsb _ d) eqn:E; [assumption|].
  apply NoDup_app; [assumption | repeat constructor; intros [] |].
  intros x Hx [Hkx|[]]. subst x.
  apply in_map_iff in Hx as ([k0 v0] & Hk & Hin). cbn [fst] in Hk. subst k0.
  assert (existsb (fun kv => k =? fst kv) d = true)
    by (apply existsb_exists; exists (k, v0); split; [assumption | apply Z.eqb_refl]).
  congruence.
Qed.

Lemma dict_set_not_nil k v d : dict_set k v d <> [].
Proof. destruct d as [|[k0 v0] d]; cbn [dict_set]; [|destruct (k =? k0)]; discriminate. Qed.

Lemma entity_items_spec items :
  forall acc m,
    entity_items items acc = Some m ->
    (NoDup (map fst acc) -> NoDup (map fst m))
    /\ (acc <> [] -> m <> [])
    /\ (forall n e, lookup n m = Some e ->
          lookup n acc = Some e
          \/ exists k v, In (k, v) items /\ PyStr.py_int k = Some n
                         /\ member "entity_id" v = Some e).
Proof.
  induction items as [|[k v] rest IH]; intros acc m; cbn [entity_items].
  - intros H. injection H as <-. auto.
  - destruct (member "entity_id" v) as [entity_id|] eqn:Hmem.
    + destruct (PyStr.py_int k) as [n0|] eqn:Hint; [|discriminate].
      intros H. destruct (IH _ _ H) as (Hnd & Hne & Hlk). split; [|split].
      * intros Hacc. apply Hnd. now apply dict_set_nodup.
      * intros _. apply Hne. apply dict_set_not_nil.
      * intros n e Hn. destruct (Hlk n e Hn) as [Hacc | (k1 & v1 & Hin & H1 & H2)].
        -- rewrite lookup_dict_set in Hacc.
           destruct (Z.eqb_spec n n0) as [->|Hneq]; [|now left].
           injection Hacc as <-. right. exists k, v. split; [now left | auto].
        -- right. exists k1, v1. split; [now right | auto].
    + intros H. destruct (IH _ _ H) as (Hnd & Hne & Hlk). split; [|split]; auto.
      intros n e Hn. destruct (Hlk n e Hn) as [Hacc | (k1 & v1 & Hin & H1 & H2)];
        [now left|].
      right. exists k1, v1. split; [now right | auto].
Qed.

Lemma entity_items_fails items :
  forall acc,
    entity_items items acc = None <->
    exists k v, In (k, v) items /\ member "entity_id" v <> None /\ PyStr.py_int k = None.
Proof.
  induction items as [|[k v] rest IH]; intros acc; cbn [entity_items].
  - split; [discriminate | intros (k & v & [] & _)].
  - destruct (member "entity_id" v) as [entity_id|] eqn:Hmem.
    + destruct (PyStr.py_int k) as [n0|] eqn:Hint.
      * rewrite IH. split; intros (k1 & v1 & Hin & H1 & H2).
        -- exists k1, v1. split; [now right | auto].
        -- destruct Hin as [Heq|Hin]; [injection Heq as <- <-; congruence|].
           exists k1, v1. auto.
      * split; [intros _ | reflexivity].
        exists k, v. split; [now left|]. split; [congruence | assumption].
    + rewrite IH. split; intros (k1 & v1 & Hin & H1 & H2).
      * exists k1, v1. split; [now right | auto].
      * destruct Hin as [Heq|Hin]; [injection Heq as <- <-; congruence|].
        exists k1, v1. auto.
Qed.

(** X21. The key-to-entity map built from the configuration: it is never
    empty (the built-in default mapping stands in when no entry names an
    entity), its keys are distinct, every entry other than the default comes
    from a configured key that names that entity, and building it fails
    exactly when an entry that names an entity has a key that [int]
    rejects (no decimal literal, or one of more than 4300 digits). *)
Theorem parse_entity_map_sound :
  forall keys_config,
    (forall m, parse_entity_map keys_config = Some m ->
       m <> []
       /\ NoDup (map fst m)
       /\ (forall n e, lookup n m = Some e ->
             (m = [(3, "switch.living_room_string_lights")]
              /\ entity_items keys_config [] = Some [])
             \/ exists k v, In (k, v) keys_config /\ PyStr.py_int k = Some n
                            /\ member "entity_id" v = Some e))
    /\ (parse_entity_map keys_config = None <->
        exists k v, In (k, v) keys_config /\ member "entity_id" v <> None
                    /\ PyStr.py_int k = None).
Proof.
  intros keys_config. unfold parse_entity_map. split.
  - intros m Hm.
    destruct (entity_items keys_config []) as [[|kv m0]|] eqn:E; [|idtac|discriminate].
    + injection Hm as <-. split; [discriminate|]. split.
      * repeat constructor. intros [].
      * intros n e _. now left.
    + injection Hm as <-. destruct (entity_items_spec _ _ _ E) as (Hnd & _ & Hlk).
      split; [discriminate|]. split; [apply Hnd; constructor|].
      intros n e Hn. destruct (Hlk n e Hn) as [Hacc|H]; [discriminate Hacc | now right].
  - rewrite <- (entity_items_fails keys_config []).
    destruct (entity_items keys_config []) as [[|kv m0]|]; split; congruence.
Qed.

Lemma parse_entity_map_sound_witness :
  parse_entity_map [("3", [("label", "Lights"); ("entity_id", "switch.a")]);
                    ("7", [("label", "Spare")]);
                    ("03", [("entity_id", "switch.b")]);
                    ("5", [("entity_id", "scene.movie")])]
  = Some [(3, "switch.b"); (5, "scene.movie")]
  /\ NoDup (map fst [(3, "switch.b"); (5, "scene.movie")]).
Proof.
  split; [reflexivity|].
  apply (proj1 (parse_entity_map_sound
                  [("3", [("label", "Lights"); ("entity_id", "switch.a")]);
                   ("7", [("label", "Spare")]);
                   ("03", [("entity_id", "switch.b")]);
                   ("5", [("entity_id", "scene.movie")])])
           [(3, "switch.b"); (5, "scene.movie")] eq_refl).
Defined.
